(** * osu! most-played beatmap downloader: a shallow embedding of [main.py]

    The script is a sequential pipeline: a paginated listing fetch
    ([retrieve_most_played_beatmaps]), a per-record archive download
    ([download_single_beatmap]) driven by [download_beatmaps], and a pure
    helper [sanitize_filename].  Python's effects (HTTP requests, sleeps,
    console output, file writes, exceptions) are modelled by a state and
    exception monad over an explicit world; the network and the file
    system's failures are an environment the functions are run against. *)

From Stdlib Require Import ZArith Ascii Lia DecimalString.
From Stdlib.Strings Require Import Byte.
From stdpp Require Import gmap strings list.

Local Open Scope Z_scope.

(** ** Strings and the filename sanitizer *)

Module Str.

(** Characters of a string, front to back. *)
Fixpoint chars (s : string) : list ascii :=
  match s with
  | EmptyString => []
  | String c s' => c :: chars s'
  end.

(** Membership in a regular-expression character class [[...]]. *)
Definition in_class (cls : list ascii) (c : ascii) : bool :=
  existsb (Ascii.eqb c) cls.

(** [re.sub(r'[cls]', repl, s)]: the class matches exactly one character,
    so the leftmost non-overlapping matches are the single characters of
    [s] that belong to the class; each is replaced by [repl] and every
    other character is copied. *)
Fixpoint re_sub_class (cls : list ascii) (repl s : string) : string :=
  match s with
  | EmptyString => EmptyString
  | String c s' =>
      if in_class cls c then repl +:+ re_sub_class cls repl s'
      else String c (re_sub_class cls repl s')
  end.

(** [str.lower()] on the ASCII letters. *)
Definition lower_char (c : ascii) : ascii :=
  let n := nat_of_ascii c in
  if ((65 <=? n) && (n <=? 90))%nat then ascii_of_nat (n + 32) else c.

Fixpoint lower (s : string) : string :=
  match s with
  | EmptyString => EmptyString
  | String c s' => String (lower_char c) (lower s')
  end.

End Str.

(** The character class of the pattern in [sanitize_filename]: backslash
    (code 92, written escaped in the pattern), slash, star, question mark,
    colon, double quote (code 34), less-than, greater-than and bar. *)
Definition reserved_chars : list ascii :=
  ["092"; "/"; "*"; "?"; ":"; "034"; "<"; ">"; "|"]%char.

(** [sanitize_filename(name)], for [name] a [str]. *)
Definition sanitize_filename (name : string) : string :=
  Str.re_sub_class reserved_chars EmptyString name.

(** Membership in the class of the sanitizer's pattern. *)
Definition is_reserved (c : ascii) : bool := Str.in_class reserved_chars c.

(** ** Python values

    The listing endpoint's records arrive through [response.json()], so the
    values the program handles are decoded JSON: [None], booleans,
    integers, strings, lists and dicts.  (Identifiers are integers or
    strings; JSON non-integer numbers are outside the model.)  A dict is
    the list of its items, keys distinct, in insertion order. *)

#[warnings="-register-all"]
Inductive Json : Type :=
| JNull
| JBool (b : bool)
| JInt (n : Z)
| JStr (s : string)
| JList (items : list Json)
| JDict (items : list (string * Json)).

Abbreviation Dict := (list (string * Json)).

(** [bool(x)]: the truth value Python's [not], [or] and [if] test. *)
Definition truthy (x : Json) : bool :=
  match x with
  | JNull => false
  | JBool b => b
  | JInt n => negb (n =? 0)
  | JStr s => match s with EmptyString => false | String _ _ => true end
  | JList items => match items with [] => false | _ :: _ => true end
  | JDict items => match items with [] => false | _ :: _ => true end
  end.

Section DictOps.
Context {V : Type}.

(** The value bound to [key], if any. *)
Fixpoint dict_lookup (d : list (string * V)) (key : string) : option V :=
  match d with
  | [] => None
  | (k, v) :: d' => if String.eqb k key then Some v else dict_lookup d' key
  end.

(** [d.get(key, default)]. *)
Definition dict_get (d : list (string * V)) (key : string) (default : V) : V :=
  match dict_lookup d key with
  | Some v => v
  | None => default
  end.

(** [d[key] = v]: replaces the binding in place, or appends a new one. *)
Fixpoint dict_set (d : list (string * V)) (key : string) (v : V)
  : list (string * V) :=
  match d with
  | [] => [(key, v)]
  | (k, v0) :: d' =>
      if String.eqb k key then (k, v) :: d' else (k, v0) :: dict_set d' key v
  end.

(** The dict without [key]. *)
Definition dict_remove (d : list (string * V)) (key : string)
  : list (string * V) :=
  List.filter (λ kv, negb (String.eqb (fst kv) key)) d.
End DictOps.

(** [range(start, stop, step)] for a positive [step]. *)
Definition py_range (start stop step : Z) : list Z :=
  map (λ k : nat, start + step * Z.of_nat k)
      (seq 0 (Z.to_nat ((stop - start + step - 1) / step))).

(** [enumerate(xs, start)]. *)
Fixpoint enumerate {A : Type} (start : Z) (xs : list A) : list (Z * A) :=
  match xs with
  | [] => []
  | x :: xs' => (start, x) :: enumerate (start + 1) xs'
  end.

(** ** Effects: the world, the environment, and the monad *)

(** The exceptions ([Exception] subclasses) that the modelled operations
    raise. *)
Inductive PyExn : Type :=
| AttributeError          (* [.get] on an object that is not a dict *)
| TypeError               (* [re.sub] on a title that is not a [str] *)
| ValueError              (* [int()] on a malformed header *)
| JSONDecodeError         (* [response.json()] on a body that is not JSON *)
| RequestException        (* connection, timeout and stream errors *)
| UnicodeEncodeError      (* [print] of text that stdout cannot encode *)
| OverflowError           (* [tqdm] on a total too large for a float *)
| OSError (errno : Z).    (* [open] and [write] failures *)

Inductive Outcome (A : Type) : Type :=
| Ret (a : A)
| Raise (e : PyExn).
Arguments Ret {A} a.
Arguments Raise {A} e.

(** A request's target.  The listing URL is determined by the user id, the
    page size and the offset; the archive URL by the identifier and the
    query parameters (the two headers sent with it are constants). *)
Inductive Url : Type :=
| ListingUrl (user_id : string) (limit offset : Z)
| ArchiveUrl (beatmapset_id : Json) (params : list (string * string)).

(** The [content-length] header as [int(headers.get('content-length', 0))]
    sees it: absent (the default [0] is used), a string [int] accepts, or a
    string on which [int] raises [ValueError]. *)
Inductive ContentLength : Type :=
| LengthAbsent
| LengthInt (n : Z)
| LengthMalformed.

(** A [requests.Response]: the status, the header above, the decoded JSON
    body ([None] when [.json()] raises), and the body as [iter_content]
    streams it: the chunks delivered, then a normal end or an exception. *)
Record Response : Type := {
  status_code : Z;
  content_length : ContentLength;
  json_body : option Json;
  chunks : list (list Byte.byte);
  stream_error : option PyExn
}.

(** The outside of the program.  [http n url] is the result of the
    [n]-th [requests.get] of the run (counted from 0), so a server may answer
    the same URL differently over time; [open_error] and [write_error] say
    which [open] calls fail and which [write] calls fail, given the file name
    and the size already written; [stdout_encodes x] says whether standard
    output can encode the text of [x] (a title in a script the console's code
    page lacks cannot be printed); [bar_error desc total] is the exception,
    if any, with which the [tqdm] constructor ends for that description and
    total. *)
Record Env : Type := {
  http : nat → Url → Outcome Response;
  open_error : string → option PyExn;
  write_error : string → nat → option PyExn;
  stdout_encodes : Json → bool;
  bar_error : string → Z → option PyExn
}.

(** What the program prints: one constructor per [print] call of the source,
    carrying the values its f-string interpolates. *)
Inductive Message : Type :=
| MsgRateLimited (offset : Z)
| MsgSkipStatus (offset status : Z)
| MsgUnexpectedData (offset : Z)
| MsgFetched (count : nat) (offset : Z)
| MsgFetchError (offset : Z) (e : PyExn)
| MsgDownloadFailed (beatmapset_id song_title : Json) (status : Z)
| MsgDownloadException (beatmapset_id song_title : Json) (e : PyExn)
| MsgSkipMissingData (index : Z)
| MsgSkipMissingId (index : Z)
| MsgDownloading (index : Z) (total : nat) (beatmapset_id song_title : Json)
| MsgFailedSaved.

Inductive Event : Type :=
| EvGet (url : Url)
| EvSleep (seconds : Z)
| EvPrint (m : Message)
| EvProgress (desc : string) (total : Z) (n : nat).

(** A file holds what was written through a binary or a text handle. *)
Inductive FileData : Type :=
| Binary (content : list Byte.byte)
| Text (content : string).

Record World : Type := {
  trace : list Event;               (* observable actions, oldest first *)
  files : gmap string FileData;     (* the working directory *)
  requests : nat                    (* [requests.get] calls made so far *)
}.

Definition M (A : Type) : Type := World → Outcome A * World.

#[global] Instance M_ret : MRet M := λ A a w, (Ret a, w).

#[global] Instance M_bind : MBind M := λ A B f m w,
  match m w with
  | (Ret a, w') => f a w'
  | (Raise e, w') => (Raise e, w')
  end.

Definition raise {A : Type} (e : PyExn) : M A := λ w, (Raise e, w).

(** [try: body  except Exception as e: handler(e)]. *)
Definition try_except {A : Type} (body : M A) (handler : PyExn → M A) : M A :=
  λ w, match body w with
       | (Ret a, w') => (Ret a, w')
       | (Raise e, w') => handler e w'
       end.

(** [for x in xs: s = body(x, s)]. *)
Fixpoint for_each {A S : Type} (xs : list A) (body : A → S → M S) (s : S) : M S :=
  match xs with
  | [] => mret s
  | x :: xs' => s' ← body x s; for_each xs' body s'
  end.

Definition emit (ev : Event) : M unit := λ w,
  (Ret tt, {| trace := trace w ++ [ev]; files := files w; requests := requests w |}).

(** [print] of a message of fixed text and numbers. *)
Definition print (m : Message) : M unit := emit (EvPrint m).

(** [time.sleep(seconds)]. *)
Definition sleep (seconds : Z) : M unit := emit (EvSleep seconds).

(** [print] of a message that interpolates values received from the server
    (an identifier, a title): the text is encoded before anything is written,
    and [UnicodeEncodeError] is raised when one of the values cannot be.  The
    other messages hold fixed text, numbers and the text of an exception,
    which are taken to be encodable. *)
Definition print_values (env : Env) (values : list Json) (m : Message) : M unit :=
  if forallb (stdout_encodes env) values then print m
  else raise UnicodeEncodeError.

(** [tqdm(total=total, ..., desc=desc, ...)]: the constructor of the progress
    bar, which draws the bar for the first time. *)
Definition progress_bar (env : Env) (desc : string) (total : Z) : M unit :=
  match bar_error env desc total with
  | Some e => raise e
  | None => mret tt
  end.

(** [requests.get(url, ...)]. *)
Definition requests_get (env : Env) (url : Url) : M Response := λ w,
  (http env (requests w) url,
   {| trace := trace w ++ [EvGet url]; files := files w;
      requests := S (requests w) |}).

(** [response.json()]. *)
Definition response_json (response : Response) : M Json :=
  match json_body response with
  | Some data => mret data
  | None => raise JSONDecodeError
  end.

(** [obj.get(key, default)]: only a dict has the method. *)
Definition py_get (obj : Json) (key : string) (default : Json) : M Json :=
  match obj with
  | JDict d => mret (dict_get d key default)
  | _ => raise AttributeError
  end.

(** [a or b]: [b] is evaluated only when [a] is falsy. *)
Definition py_or (a b : M Json) : M Json :=
  x ← a; if truthy x then mret x else b.

Definition set_file (name : string) (data : FileData) : M unit := λ w,
  (Ret tt, {| trace := trace w; files := <[name := data]> (files w);
              requests := requests w |}).

(** [open(name, mode)] for writing: creates or truncates the file. *)
Definition open_for_writing (env : Env) (name : string) (empty : FileData) : M unit :=
  match open_error env name with
  | Some e => raise e
  | None => set_file name empty
  end.

(** [f.write(chunk)] on a binary handle that has written [written]. *)
Definition write_bytes (env : Env) (name : string) (written chunk : list Byte.byte)
  : M unit :=
  match write_error env name (length written) with
  | Some e => raise e
  | None => set_file name (Binary (written ++ chunk))
  end.

(** [f.write(s)] on a text handle that has written [written]. *)
Definition write_text (env : Env) (name : string) (written s : string) : M unit :=
  match write_error env name (String.length written) with
  | Some e => raise e
  | None => set_file name (Text (written +:+ s))
  end.

(** ** The program *)

Section Program.

(** Python's [str()] (also what an f-string applies to an interpolated
    value): a builtin of the language, not code of the script. *)
Variable py_str : Json → string.

Variable env : Env.

(** *** [retrieve_most_played_beatmaps] *)

Definition per_page : Z := 10.

(** One iteration of the [for current_offset in range(...)] loop: the
    [try] block and its handler.  Each [continue] ends the iteration, and
    the [for] statement then takes the next offset of the range. *)
Definition fetch_page (user_id : string) (current_offset : Z)
    (beatmaps : list Json) : M (list Json) :=
  try_except
    (response ← requests_get env (ListingUrl user_id per_page current_offset);
     if status_code response =? 429 then
       print (MsgRateLimited current_offset);;
       sleep 10;;
       mret beatmaps
     else if negb (status_code response =? 200) then
       print (MsgSkipStatus current_offset (status_code response));;
       mret beatmaps
     else
       data ← response_json response;
       match data with
       | JList items =>
           print (MsgFetched (length items) current_offset);;
           sleep 1;;
           mret (beatmaps ++ items)
       | _ =>
           print (MsgUnexpectedData current_offset);;
           mret beatmaps
       end)
    (λ e, print (MsgFetchError current_offset e);; mret beatmaps).

Definition retrieve_most_played_beatmaps (user_id : string) (limit offset : Z)
  : M (list Json) :=
  for_each (py_range offset (offset + limit) per_page) (fetch_page user_id) [].

(** *** [download_single_beatmap] *)

(** The loop that fills [params]: each key is lower-cased and bound to
    ['true'] or ['false'] by the truth value of the option of that name. *)
Definition build_params (options : Dict) : list (string * string) :=
  foldl
    (λ params key,
       let param_key := Str.lower key in
       dict_set params param_key
         (if truthy (dict_get options param_key (JBool false))
          then "true" else "false"))
    [] ["noHitsound"; "noStoryboard"; "noBg"; "noVideo"].

(** [int(response.headers.get('content-length', 0))]. *)
Definition total_size_of (response : Response) : M Z :=
  match content_length response with
  | LengthAbsent => mret 0
  | LengthInt n => mret n
  | LengthMalformed => raise ValueError
  end.

(** [sanitize_filename(song_title)]: [re.sub] raises [TypeError] unless its
    subject is a string. *)
Definition sanitize_title (song_title : Json) : M string :=
  match song_title with
  | JStr s => mret (sanitize_filename s)
  | _ => raise TypeError
  end.

(** The [for chunk in response.iter_content(...)] loop: empty chunks are
    skipped, the others are written and reported to the progress bar. *)
Fixpoint save_chunks (filename : string) (total_size : Z)
    (cs : list (list Byte.byte)) (written : list Byte.byte)
  : M (list Byte.byte) :=
  match cs with
  | [] => mret written
  | chunk :: cs' =>
      match chunk with
      | [] => save_chunks filename total_size cs' written
      | _ :: _ =>
          write_bytes env filename written chunk;;
          emit (EvProgress filename total_size (length chunk));;
          save_chunks filename total_size cs' (written ++ chunk)
      end
  end.

(** The end of the stream, as the [for] statement meets it. *)
Definition end_of_stream (response : Response) : M unit :=
  match stream_error response with
  | Some e => raise e
  | None => mret tt
  end.

(** The body of the [try] statement. *)
Definition download_attempt (beatmapset_id song_title : Json)
    (params : list (string * string)) : M bool :=
  response ← requests_get env (ArchiveUrl beatmapset_id params);
  if status_code response =? 200 then
    total_size ← total_size_of response;
    title ← sanitize_title song_title;
    let filename := py_str beatmapset_id +:+ " - " +:+ title +:+ ".osz" in
    open_for_writing env filename (Binary []);;
    progress_bar env filename total_size;;
    save_chunks filename total_size (chunks response) [];;
    end_of_stream response;;
    mret true
  else
    print_values env [beatmapset_id; song_title]
      (MsgDownloadFailed beatmapset_id song_title (status_code response));;
    mret false.

Definition download_single_beatmap (beatmapset_id song_title : Json)
    (options : Dict) : M bool :=
  let params := build_params options in
  try_except
    (download_attempt beatmapset_id song_title params)
    (λ e, print_values env [beatmapset_id; song_title]
            (MsgDownloadException beatmapset_id song_title e);;
          mret false).

(** *** [download_beatmaps] *)

(** The download of an identified record: lines 75 to 79. *)
Definition attempt_download (total : nat) (i : Z)
    (beatmapset_id song_title : Json) (options : Dict)
    (failed_downloads : list Json) : M (list Json) :=
  print_values env [beatmapset_id; song_title]
    (MsgDownloading i total beatmapset_id song_title);;
  success ← download_single_beatmap beatmapset_id song_title options;
  let failed_downloads' :=
    if (success : bool) then failed_downloads
    else failed_downloads ++ [beatmapset_id] in
  sleep 1;;
  mret failed_downloads'.

(** Lines 68 to 79: the iteration once the nested object is known to be
    truthy. *)
Definition download_from (total : nat) (options : Dict) (i : Z)
    (beatmapset : Json) (failed_downloads : list Json) : M (list Json) :=
  beatmapset_id ← py_or (py_get beatmapset "id" JNull)
                        (py_get beatmapset "beatmapset_id" JNull);
  song_title ← py_get beatmapset "title" (JStr "Unknown Title");
  if negb (truthy beatmapset_id) then
    print (MsgSkipMissingId i);;
    mret (failed_downloads ++ [JNull])
  else
    attempt_download total i beatmapset_id song_title options failed_downloads.

(** One iteration of [for i, beatmap in enumerate(beatmaps, 1)].  The
    failure list holds identifiers and [None] placeholders ([JNull]). *)
Definition download_record (total : nat) (options : Dict)
    (entry : Z * Json) (failed_downloads : list Json) : M (list Json) :=
  let '(i, beatmap) := entry in
  beatmapset ← py_or (py_get beatmap "beatmapset" JNull)
                     (py_get beatmap "beatmap" JNull);
  if negb (truthy beatmapset) then
    print (MsgSkipMissingData i);;
    mret (failed_downloads ++ [JNull])
  else
    download_from total options i beatmapset failed_downloads.

Definition report_name : string := "failed_downloads.txt".

(** A line feed. *)
Definition newline : string := String "010" EmptyString.

(** The body of [for fail in failed_downloads]; the state is the text
    written so far. *)
Definition report_line (fail : Json) (written : string) : M string :=
  if truthy fail then
    let line := py_str fail +:+ newline in
    write_text env report_name written line;;
    mret (written +:+ line)
  else mret written.

(** The final [if failed_downloads:] block. *)
Definition write_report (failed_downloads : list Json) : M unit :=
  match failed_downloads with
  | [] => mret tt
  | _ :: _ =>
      open_for_writing env report_name (Text EmptyString);;
      for_each failed_downloads report_line EmptyString;;
      print MsgFailedSaved
  end.

(** The loop over the records, up to the final block. *)
Definition download_all (beatmaps : list Json) (options : Dict)
  : M (list Json) :=
  for_each (enumerate 1 beatmaps) (download_record (length beatmaps) options) [].

Definition download_beatmaps (beatmaps : list Json) (options : Dict) : M unit :=
  failed_downloads ← download_all beatmaps options;
  write_report failed_downloads.

End Program.

(** ** Sample inputs

    Concrete records, servers and file systems on which the functions are
    run in the examples below. *)

Module Samples.

(** [str()] on the scalar values.  The [repr] of containers is not
    modelled: the samples use integer and string identifiers only. *)
Definition str_scalar (x : Json) : string :=
  match x with
  | JNull => "None"
  | JBool true => "True"
  | JBool false => "False"
  | JInt n => NilZero.string_of_int (Z.to_int n)
  | JStr s => s
  | JList _ | JDict _ => EmptyString
  end.

(** A listing record in its usual shape. *)
Definition record (id : Z) (title : string) : Json :=
  JDict [("beatmapset", JDict [("id", JInt id); ("title", JStr title)])].

(** A full page: ten records, identified by their rank in the listing. *)
Definition page (offset : Z) : list Json :=
  map (λ k : nat, record (offset + Z.of_nat k) "song") (seq 0 10).

Definition reply (status : Z) (data : option Json)
    (body : list (list Byte.byte)) (err : option PyExn) : Outcome Response :=
  Ret {| status_code := status; content_length := LengthAbsent;
         json_body := data; chunks := body; stream_error := err |}.

Definition abc : list Byte.byte := String.list_byte_of_string "abc".

Definition no_errors : string → option PyExn := λ _, None.

(** Every listing request is answered with a full page, every archive
    request with a three-byte body. *)
Definition serve (url : Url) : Outcome Response :=
  match url with
  | ListingUrl _ _ offset => reply 200 (Some (JList (page offset))) [] None
  | ArchiveUrl _ _ => reply 200 None [abc] None
  end.

Definition full_pages : Env :=
  {| http := λ _ url, serve url;
     open_error := no_errors;
     write_error := λ _ _, None;
     stdout_encodes := λ _, true;
     bar_error := λ _ _, None |}.

(** The first request of the run is rate-limited, the later ones are
    served. *)
Definition rate_limited_once : Env :=
  {| http := λ n url, match n with
                      | O => reply 429 None [] None
                      | S _ => serve url
                      end;
     open_error := no_errors;
     write_error := λ _ _, None;
     stdout_encodes := λ _, true;
     bar_error := λ _ _, None |}.

(** The archive server answers 200 and drops the connection after the
    first chunk. *)
Definition dropped_stream : Env :=
  {| http := λ _ _, reply 200 None [abc] (Some RequestException);
     open_error := no_errors;
     write_error := λ _ _, None;
     stdout_encodes := λ _, true;
     bar_error := λ _ _, None |}.

(** The archive of beatmap set 2 is missing (404); the others are served. *)
Definition second_missing : Env :=
  {| http := λ _ url, match url with
                      | ArchiveUrl (JInt 2) _ => reply 404 None [] None
                      | _ => serve url
                      end;
     open_error := no_errors;
     write_error := λ _ _, None;
     stdout_encodes := λ _, true;
     bar_error := λ _ _, None |}.

(** The options [main] builds when every prompt is answered by its
    default. *)
Definition default_options : Dict :=
  [("nohitsound", JBool false); ("nostoryboard", JBool false);
   ("nobg", JBool false); ("novideo", JBool true)].

Definition start : World := {| trace := []; files := ∅; requests := 0 |}.

(** A console whose code page is ASCII: a string is encoded when all its
    characters are below 128; the other values print as ASCII text. *)
Definition ascii_only (x : Json) : bool :=
  match x with
  | JStr s => forallb (λ c, (nat_of_ascii c <? 128)%nat) (Str.chars s)
  | _ => true
  end.

(** A title with a character outside ASCII (code 233). *)
Definition accented_title : Json := JStr (String "c" (String "233" EmptyString)).

(** The server of [second_missing], seen from an ASCII console. *)
Definition ascii_console : Env :=
  {| http := http second_missing;
     open_error := no_errors;
     write_error := λ _ _, None;
     stdout_encodes := ascii_only;
     bar_error := λ _ _, None |}.

(** The server of [second_missing], and a directory in which no file can be
    opened for writing. *)
Definition read_only_directory : Env :=
  {| http := http second_missing;
     open_error := λ _, Some (OSError 13);
     write_error := λ _ _, None;
     stdout_encodes := λ _, true;
     bar_error := λ _ _, None |}.

(** No connection, and an ASCII console. *)
Definition offline_ascii_console : Env :=
  {| http := λ _ _, Raise RequestException;
     open_error := no_errors;
     write_error := λ _ _, None;
     stdout_encodes := ascii_only;
     bar_error := λ _ _, None |}.

(** A server that declares a length of 10^400 bytes: the progress bar
    cannot convert such a total to a float. *)
Definition oversized_length : Env :=
  {| http := λ _ _, Ret {| status_code := 200;
                           content_length := LengthInt (10 ^ 400);
                           json_body := None; chunks := [abc];
                           stream_error := None |};
     open_error := no_errors;
     write_error := λ _ _, None;
     stdout_encodes := λ _, true;
     bar_error := λ _ total, if 2 ^ 1024 <=? total then Some OverflowError
                             else None |}.

End Samples.

(** ** Observations on runs *)

(** The requests of a trace, oldest first. *)
Fixpoint gets (t : list Event) : list Url :=
  match t with
  | [] => []
  | EvGet url :: t' => url :: gets t'
  | _ :: t' => gets t'
  end.

(** What one listing request adds to the result: the items of a JSON list
    answered with status 200, and nothing in every other case. *)
Definition page_items (r : Outcome Response) : list Json :=
  match r with
  | Ret response =>
      if status_code response =? 200 then
        match json_body response with
        | Some (JList items) => items
        | _ => []
        end
      else []
  | Raise _ => []
  end.

(** Whether the messages about a download can be printed: they interpolate
    the identifier and the title. *)
Definition printable (env : Env) (beatmapset_id song_title : Json) : bool :=
  forallb (stdout_encodes env) [beatmapset_id; song_title].

(** The world after one more event. *)
Definition logged (ev : Event) (w : World) : World :=
  {| trace := trace w ++ [ev]; files := files w; requests := requests w |}.

(** The [None] placeholder of the failure list. *)
Definition is_null (x : Json) : bool :=
  match x with
  | JNull => true
  | _ => false
  end.

(** An entry of the failure list is either the placeholder or truthy. *)
Definition entry_ok (x : Json) : Prop := truthy x = negb (is_null x).

(** The failure report: the non-null entries, in order, one per line. *)
Definition report_text (py_str : Json → string) (failed_downloads : list Json)
  : string :=
  foldr (λ fail text, py_str fail +:+ newline +:+ text) EmptyString
        (List.filter (λ fail, negb (is_null fail)) failed_downloads).

(** The least integer not below [a / b], for [b] positive. *)
Definition ceil_div (a b : Z) : Z := - ((- a) / b).

(** The number of pages the fetcher asks for: [ceil (limit / 10)], and none
    when [limit] is not positive. *)
Definition iterations (limit : Z) : nat :=
  if 0 <? limit then Z.to_nat (ceil_div limit 10) else 0%nat.

(** The offset of the [k]-th page of a run that starts at [offset]. *)
Definition nth_offset (offset : Z) (k : nat) : Z := offset + 10 * Z.of_nat k.

(** ** The console: [prompt_yes_no] and [main]

    Standard input is the list of the lines still to be read; [input]
    takes the first one and raises [EOFError] when none is left.  What
    [main] and [prompt_yes_no] write to the terminal is kept in a transcript of
    its own, one constructor per prompt and per [print] call. *)

Inductive ConsoleOut : Type :=
| AskUserId
| AskUserIdAgain
| AskLimit
| AskOffset
| AskYesNo (prompt default : string)
| SayBanner
| SayLimitDefaulted
| SayOffsetDefaulted
| SaySelectOptions
| SayPleaseEnter
| SayNoBeatmaps.

Record Console : Type := {
  stdin : list string;
  stdout : list ConsoleOut
}.

Inductive Answer (A : Type) : Type :=
| Got (a : A)
| EOFError.
Arguments Got {A} a.
Arguments EOFError {A}.

Definition C (A : Type) : Type := Console → Answer A * Console.

#[global] Instance C_ret : MRet C := λ A a c, (Got a, c).

#[global] Instance C_bind : MBind C := λ A B f m c,
  match m c with
  | (Got a, c') => f a c'
  | (EOFError, c') => (EOFError, c')
  end.

(** [print(...)] in [main] and [prompt_yes_no]. *)
Definition say (m : ConsoleOut) : C unit := λ c,
  (Got tt, {| stdin := stdin c; stdout := stdout c ++ [m] |}).

(** [input(prompt)]: the prompt is written, then a line is read. *)
Definition input (prompt : ConsoleOut) : C string := λ c,
  match stdin c with
  | [] => (EOFError, {| stdin := []; stdout := stdout c ++ [prompt] |})
  | line :: rest => (Got line, {| stdin := rest; stdout := stdout c ++ [prompt] |})
  end.

(** How [main] ends: it returns, or an exception leaves it. *)
Inductive Exit : Type :=
| Returned
| Uncaught (e : PyExn)
| UncaughtEOF.

Section ConsoleProgram.

(** The string builtins the console code calls: [str.strip], [str.lower],
    [str.isdigit] and [int] on a string ([None] when it raises
    [ValueError]). *)
Variable py_strip : string → string.
Variable py_lower : string → string.
Variable py_isdigit : string → bool.
Variable py_int : string → option Z.

Variable py_str : Json → string.
Variable env : Env.

(** The choice an answer stands for: stripped, lower-cased, and replaced by
    the default when empty. *)
Definition choice_of (default line : string) : string :=
  match py_lower (py_strip line) with
  | EmptyString => default
  | choice => choice
  end.

(** [choice in ['y', 'n']]. *)
Definition is_yes_or_no (choice : string) : bool :=
  existsb (String.eqb choice) ["y"; "n"].

(** The [while True] loop of [prompt_yes_no], on the lines left to read and
    the transcript so far: every iteration reads one line. *)
Fixpoint prompt_yes_no_loop (prompt default : string) (lines : list string)
    (out : list ConsoleOut) : Answer bool * Console :=
  match lines with
  | [] => (EOFError, {| stdin := []; stdout := out ++ [AskYesNo prompt default] |})
  | line :: rest =>
      let choice := choice_of default line in
      if is_yes_or_no choice then
        (Got (String.eqb choice "y"),
         {| stdin := rest; stdout := out ++ [AskYesNo prompt default] |})
      else
        prompt_yes_no_loop prompt default rest
          (out ++ [AskYesNo prompt default; SayPleaseEnter])
  end.

Definition prompt_yes_no (prompt default : string) : C bool := λ c,
  prompt_yes_no_loop prompt default (stdin c) (stdout c).

(** [while not user_id.isdigit(): user_id = input(...).strip()]. *)
Fixpoint user_id_loop (user_id : string) (lines : list string)
    (out : list ConsoleOut) {struct lines} : Answer string * Console :=
  if py_isdigit user_id then (Got user_id, {| stdin := lines; stdout := out |})
  else
    match lines with
    | [] => (EOFError, {| stdin := []; stdout := out ++ [AskUserIdAgain] |})
    | line :: rest => user_id_loop (py_strip line) rest (out ++ [AskUserIdAgain])
    end.

Definition until_digits (user_id : string) : C string := λ c,
  user_id_loop user_id (stdin c) (stdout c).

(** Lines 119 to 121. *)
Definition read_user_id : C string :=
  first ← input AskUserId;
  until_digits (py_strip first).

(** [try: x = int(input(...).strip())  except: x = default; print(...)].
    The bare [except] also catches the [EOFError] of [input]. *)
Definition read_int (ask : ConsoleOut) (default : Z) (warning : ConsoleOut)
  : C Z := λ c,
  match input ask c with
  | (Got line, c') =>
      match py_int (py_strip line) with
      | Some n => (Got n, c')
      | None => (say warning;; mret default) c'
      end
  | (EOFError, c') => (say warning;; mret default) c'
  end.

(** The [options] dict of [main]. *)
Definition main_options (nohitsound nostoryboard nobg novideo : bool) : Dict :=
  let options := [] in
  let options := dict_set options "nohitsound" (JBool nohitsound) in
  let options := dict_set options "nostoryboard" (JBool nostoryboard) in
  let options := dict_set options "nobg" (JBool nobg) in
  dict_set options "novideo" (JBool novideo).

(** Lines 118 to 140 of [main]: everything it asks before it fetches. *)
Definition main_inputs : C (string * Z * Z * Dict) :=
  say SayBanner;;
  user_id ← read_user_id;
  limit ← read_int AskLimit 10 SayLimitDefaulted;
  offset ← read_int AskOffset 0 SayOffsetDefaulted;
  say SaySelectOptions;;
  nohitsound ← prompt_yes_no "NoHitsound" "n";
  nostoryboard ← prompt_yes_no "NoStoryboard" "n";
  nobg ← prompt_yes_no "noBg" "n";
  novideo ← prompt_yes_no "noVideo" "y";
  mret (user_id, limit, offset,
        main_options nohitsound nostoryboard nobg novideo).

(** [main()]: the console dialogue, then the fetch and, unless it found
    nothing, the batch download. *)
Definition main (c : Console) (w : World) : Exit * Console * World :=
  match main_inputs c with
  | (EOFError, c1) => (UncaughtEOF, c1, w)
  | (Got (user_id, limit, offset, options), c1) =>
      match retrieve_most_played_beatmaps env user_id limit offset w with
      | (Raise e, w1) => (Uncaught e, c1, w1)
      | (Ret [], w1) =>
          (Returned,
           {| stdin := stdin c1; stdout := stdout c1 ++ [SayNoBeatmaps] |}, w1)
      | (Ret (beatmap :: beatmaps), w1) =>
          match download_beatmaps py_str env (beatmap :: beatmaps) options w1 with
          | (Ret _, w2) => (Returned, c1, w2)
          | (Raise e, w2) => (Uncaught e, c1, w2)
          end
      end
  end.

End ConsoleProgram.

(** ** More observations on runs *)

(** The seconds a trace spends in [time.sleep]. *)
Fixpoint slept (t : list Event) : Z :=
  match t with
  | [] => 0
  | EvSleep seconds :: t' => seconds + slept t'
  | _ :: t' => slept t'
  end.

(** The pause that follows a listing reply: 10 seconds after a 429, one
    second after a page that was added, none after a page that was
    skipped. *)
Definition page_delay (r : Outcome Response) : Z :=
  match r with
  | Ret response =>
      if status_code response =? 429 then 10
      else if status_code response =? 200 then
        match json_body response with
        | Some (JList _) => 1
        | _ => 0
        end
      else 0
  | Raise _ => 0
  end.

Definition is_dict (x : Json) : bool :=
  match x with
  | JDict _ => true
  | _ => false
  end.

(** [a or b] on values. *)
Definition or_else (a b : Json) : Json := if truthy a then a else b.

(** The nested object the batch loop reads from a dict record. *)
Definition nested_of (d : Dict) : Json :=
  or_else (dict_get d "beatmapset" JNull) (dict_get d "beatmap" JNull).

(** The identifier the batch loop reads from a nested dict. *)
Definition id_of (nd : Dict) : Json :=
  or_else (dict_get nd "id" JNull) (dict_get nd "beatmapset_id" JNull).

(** The entry a record can add to the failure list: its identifier, or the
    placeholder when it has none. *)
Definition failure_entry (beatmap : Json) : Json :=
  match beatmap with
  | JDict d =>
      match nested_of d with
      | JDict nd =>
          if truthy (nested_of d) && truthy (id_of nd) then id_of nd else JNull
      | _ => JNull
      end
  | _ => JNull
  end.

(** A record without a usable nested object: a dict whose [beatmapset] and
    [beatmap] values are both absent or falsy. *)
Definition unidentified (beatmap : Json) : bool :=
  match beatmap with
  | JDict d => negb (truthy (nested_of d))
  | _ => false
  end.

(** The bytes [iter_content] delivers, empty chunks included. *)
Definition body_of (response : Response) : list Byte.byte :=
  concat (chunks response).

(** The name of the archive file. *)
Definition archive_name (py_str : Json → string) (beatmapset_id : Json)
    (title : string) : string :=
  py_str beatmapset_id +:+ " - " +:+ sanitize_filename title +:+ ".osz".

(** ['true'] or ['false']. *)
Definition flag (b : bool) : string := if b then "true" else "false".

(** What a computation does to the trace, whatever the world it starts
    from: it adds events at the end and counts its requests, and its outcome,
    the requests it adds and the time it sleeps satisfy [P]. *)
Definition effect {A : Type} (m : M A)
    (P : Outcome A → list Url → Z → Prop) : Prop :=
  ∀ w, ∃ evs,
    trace (snd (m w)) = trace w ++ evs
    ∧ requests (snd (m w)) = (requests w + length (gets evs))%nat
    ∧ P (fst (m w)) (gets evs) (slept evs).

(** No request and no sleep. *)
Definition quiet (urls : list Url) (seconds : Z) : Prop :=
  urls = [] ∧ seconds = 0.

(** An archive request with the given query parameters. *)
Definition archive_request (params : list (string * string)) (url : Url) : Prop :=
  ∃ beatmapset_id, url = ArchiveUrl beatmapset_id params.

(** The requests of a batch: at most [n], all for archives with the given
    parameters, each followed by a sleep of one second. *)
Definition batch_effect (params : list (string * string)) (n : nat)
    (urls : list Url) (seconds : Z) : Prop :=
  (length urls ≤ n)%nat
  ∧ Forall (archive_request params) urls
  ∧ seconds = Z.of_nat (length urls).

(** The computation returns. *)
Definition returns {A : Type} (o : Outcome A) : Prop := ∃ a, o = Ret a.

(** A record on which [.get] raises: it is not a dict, or the nested value
    the loop selects is truthy and not a dict. *)
Definition malformed (beatmap : Json) : bool :=
  match beatmap with
  | JDict d => truthy (nested_of d) && negb (is_dict (nested_of d))
  | _ => true
  end.

(** An identified record whose download cannot be announced: the nested
    object is a truthy dict with a truthy identifier, and standard output
    cannot encode the identifier or the title. *)
Definition unprintable (env : Env) (beatmap : Json) : bool :=
  match beatmap with
  | JDict d =>
      match nested_of d with
      | JDict nd =>
          truthy (nested_of d) && truthy (id_of nd)
          && negb (printable env (id_of nd)
                     (dict_get nd "title" (JStr "Unknown Title")))
      | _ => false
      end
  | _ => false
  end.

(** A record that ends the batch with an exception. *)
Definition aborts (env : Env) (beatmap : Json) : bool :=
  malformed beatmap || unprintable env beatmap.

Module ConsoleSamples.

(** ASCII stand-ins for the string builtins, exact on the sample answers
    (plain ASCII without surrounding blanks). *)
Definition strip (s : string) : string := s.

Definition isdigit (s : string) : bool :=
  match s with
  | EmptyString => false
  | _ => forallb (λ c, (48 <=? nat_of_ascii c)%nat && (nat_of_ascii c <=? 57)%nat)
                 (Str.chars s)
  end.

Definition to_int (s : string) : option Z :=
  if isdigit s then
    Some (foldl (λ n c, 10 * n + Z.of_nat (nat_of_ascii c - 48)) 0 (Str.chars s))
  else None.

Definition run_main (lines : list string) (env : Env) : Exit * Console * World :=
  main strip Str.lower isdigit to_int Samples.str_scalar env
    {| stdin := lines; stdout := [] |} Samples.start.

End ConsoleSamples.

(** * Properties *)

(** ** The sanitizer *)

Lemma in_class_elem_of (cls : list ascii) (c : ascii) :
  Str.in_class cls c = true ↔ c ∈ cls.
Proof.
  unfold Str.in_class. rewrite existsb_exists, list_elem_of_In. split.
  - intros (x & Hx & Heq). apply Ascii.eqb_eq in Heq. by subst.
  - intros Hc. exists c. split; [done | apply Ascii.eqb_refl].
Qed.

Lemma sanitize_filename_cons (c : ascii) (s : string) :
  sanitize_filename (String c s) =
  if is_reserved c then sanitize_filename s else String c (sanitize_filename s).
Proof.
  unfold sanitize_filename, is_reserved. cbn [Str.re_sub_class].
  by destruct (Str.in_class reserved_chars c).
Qed.

Lemma is_reserved_elem_of (c : ascii) : is_reserved c = true ↔ c ∈ reserved_chars.
Proof. apply in_class_elem_of. Qed.

Lemma sanitize_filename_chars (name : string) :
  Str.chars (sanitize_filename name) =
  filter (λ c, c ∉ reserved_chars) (Str.chars name).
Proof.
  induction name as [|c s IH]; [done |].
  rewrite sanitize_filename_cons. cbn [Str.chars]. rewrite filter_cons.
  destruct (is_reserved c) eqn:Hc.
  - apply is_reserved_elem_of in Hc. by rewrite decide_False by tauto.
  - assert (c ∉ reserved_chars) as Hn
      by (rewrite <- is_reserved_elem_of; congruence).
    rewrite decide_True by done. cbn [Str.chars]. by f_equal.
Qed.

(** C7: the sanitizer's output is the input with exactly the characters of
    the reserved class deleted, the kept characters in their original
    order, so that no reserved character occurs in the output. *)
Theorem sanitize_filename_deletes_reserved (name : string) :
  Str.chars (sanitize_filename name) =
    filter (λ c, c ∉ reserved_chars) (Str.chars name)
  ∧ (∀ c, c ∈ reserved_chars → c ∉ Str.chars (sanitize_filename name))
  ∧ Str.chars (sanitize_filename name) `sublist_of` Str.chars name.
Proof.
  rewrite sanitize_filename_chars. split_and!.
  - done.
  - intros c Hc Hin. apply list_elem_of_filter in Hin. tauto.
  - apply sublist_filter.
Qed.

Lemma sanitize_filename_deletes_reserved_witness :
  sanitize_filename "a/b" = "ab" ∧ "/"%char ∉ Str.chars (sanitize_filename "a/b").
Proof.
  split; [reflexivity |].
  apply (proj1 (proj2 (sanitize_filename_deletes_reserved "a/b"))).
  apply is_reserved_elem_of. reflexivity.
Defined.

Lemma chars_inj (s t : string) : Str.chars s = Str.chars t → s = t.
Proof.
  revert t. induction s as [|c s IH]; intros [|d t] H; simplify_eq/=; [done |].
  f_equal. by apply IH.
Qed.

(** C8: sanitizing a sanitized name changes nothing. *)
Theorem sanitize_filename_idempotent (name : string) :
  sanitize_filename (sanitize_filename name) = sanitize_filename name.
Proof.
  apply chars_inj. rewrite !sanitize_filename_chars.
  apply list_filter_filter_l. tauto.
Qed.

Example sanitize_filename_sample :
  sanitize_filename "AC/DC: Who? <Live> 1|2*3" = "ACDC Who Live 123".
Proof. reflexivity. Qed.

(** ** The monad's equations *)

Lemma bind_ret {A B : Type} (m : M A) (f : A → M B) (w w' : World) (a : A) :
  m w = (Ret a, w') → (m ≫= f) w = f a w'.
Proof. intros H. unfold mbind, M_bind. by rewrite H. Qed.

Lemma gets_app (t1 t2 : list Event) : gets (t1 ++ t2) = gets t1 ++ gets t2.
Proof.
  induction t1 as [|[] t1 IH]; simpl; [done | by rewrite IH | done ..].
Qed.

(** ** The fetcher *)

(** One iteration issues exactly one request, changes no file, never raises,
    and adds [page_items] of the reply to the result. *)
Lemma fetch_page_run (env : Env) (user_id : string) (off : Z)
    (acc : list Json) (w : World) :
  ∃ evs,
    fetch_page env user_id off acc w =
      (Ret (acc ++ page_items (http env (requests w) (ListingUrl user_id per_page off))),
       {| trace := trace w ++ EvGet (ListingUrl user_id per_page off) :: evs;
          files := files w;
          requests := S (requests w) |})
    ∧ gets evs = [].
Proof.
  unfold fetch_page, try_except, page_items, response_json, print, sleep, emit,
    requests_get, raise, mbind, M_bind, mret, M_ret; simpl.
  destruct (http env (requests w) _) as [resp|e]; simpl.
  - destruct (status_code resp =? 429) eqn:H429; simpl.
    { assert ((status_code resp =? 200) = false) as -> by lia.
      eexists. rewrite app_nil_r, <- !app_assoc. simpl. split; reflexivity. }
    destruct (status_code resp =? 200); simpl.
    + destruct (json_body resp) as [[]|]; simpl;
        eexists; rewrite ?app_nil_r, <- !app_assoc; simpl; split; reflexivity.
    + eexists. rewrite app_nil_r, <- !app_assoc. simpl. split; reflexivity.
  - eexists. rewrite app_nil_r, <- !app_assoc. simpl. split; reflexivity.
Qed.

(** The loop over any list of offsets: total, one request per offset in
    order, the items of the pages concatenated in that order. *)
Lemma fetch_loop_run (env : Env) (user_id : string) (offs : list Z) :
  ∀ (acc : list Json) (w : World),
  ∃ w',
    for_each offs (fetch_page env user_id) acc w =
      (Ret (acc ++ concat (imap (λ k off,
              page_items (http env (requests w + k)%nat
                               (ListingUrl user_id per_page off))) offs)), w')
    ∧ gets (trace w') = gets (trace w) ++ map (ListingUrl user_id per_page) offs
    ∧ files w' = files w
    ∧ requests w' = (requests w + length offs)%nat.
Proof.
  induction offs as [|off offs IH]; intros acc w.
  - exists w. simpl. rewrite !app_nil_r, Nat.add_0_r. done.
  - destruct (fetch_page_run env user_id off acc w) as (evs & Hrun & Hevs).
    cbn [for_each]. rewrite (bind_ret _ _ _ _ _ Hrun).
    edestruct IH as (w' & -> & Ht & Hf & Hr). exists w'.
    simpl in Ht, Hf, Hr. split_and!.
    + f_equal. rewrite imap_cons. cbn [concat]. rewrite Nat.add_0_r, <- app_assoc.
      do 4 f_equal. apply imap_ext. intros k x _. simpl.
      by rewrite Nat.add_succ_r.
    + rewrite Ht, gets_app. simpl. rewrite Hevs, <- app_assoc. done.
    + done.
    + rewrite Hr. simpl. lia.
Qed.

Lemma py_range_offsets (limit offset : Z) :
  py_range offset (offset + limit) per_page =
  map (nth_offset offset) (seq 0 (iterations limit)).
Proof.
  unfold py_range, iterations, nth_offset, ceil_div, per_page.
  replace (offset + limit - offset + 10 - 1) with (limit + 9) by lia.
  replace (Z.to_nat ((limit + 9) / 10))
    with (if 0 <? limit then Z.to_nat (- (- limit / 10)) else 0%nat); [done |].
  destruct (Z.ltb_spec 0 limit); Z.to_euclidean_division_equations; lia.
Qed.

Lemma imap_map_seq {A B : Type} (f : nat → A → B) (g : nat → A) (n : nat) :
  imap f (map g (seq 0 n)) = map (λ k, f k (g k)) (seq 0 n).
Proof.
  apply list_eq. intros i.
  rewrite list_lookup_imap, !list_lookup_fmap.
  destruct (decide (i < n)%nat) as [Hi|Hi].
  - by rewrite lookup_seq_lt.
  - by rewrite lookup_seq_ge by lia.
Qed.

(** The whole run in closed form. *)
Lemma retrieve_run (env : Env) (user_id : string) (limit offset : Z) (w : World) :
  ∃ w',
    retrieve_most_played_beatmaps env user_id limit offset w =
      (Ret (concat (map (λ k : nat,
              page_items (http env (requests w + k)%nat
                (ListingUrl user_id per_page (nth_offset offset k))))
              (seq 0 (iterations limit)))), w')
    ∧ gets (trace w') =
        gets (trace w) ++
        map (λ k, ListingUrl user_id per_page (nth_offset offset k))
            (seq 0 (iterations limit))
    ∧ files w' = files w
    ∧ requests w' = (requests w + iterations limit)%nat.
Proof.
  unfold retrieve_most_played_beatmaps. rewrite py_range_offsets.
  destruct (fetch_loop_run env user_id
              (map (nth_offset offset) (seq 0 (iterations limit))) [] w)
    as (w' & Hrun & Ht & Hf & Hr).
  exists w'. split_and!.
  - rewrite Hrun. simpl. by rewrite imap_map_seq.
  - by rewrite Ht, <- list_fmap_compose.
  - done.
  - by rewrite Hr, length_map, length_seq.
Qed.

(** C9: whatever the server answers, the fetcher returns, after exactly
    [ceil (limit / 10)] iterations (none when [limit] is not positive), each of
    which issues one request; the 429 branch is one of those iterations. *)
Theorem retrieve_terminates_after_ceil_iterations
    (env : Env) (user_id : string) (limit offset : Z) (w : World) :
  ∃ beatmaps w',
    retrieve_most_played_beatmaps env user_id limit offset w = (Ret beatmaps, w')
    ∧ requests w' = (requests w + iterations limit)%nat
    ∧ length (gets (trace w')) = (length (gets (trace w)) + iterations limit)%nat
    ∧ length (py_range offset (offset + limit) per_page) = iterations limit.
Proof.
  destruct (retrieve_run env user_id limit offset w) as (w' & Hrun & Ht & _ & Hr).
  eexists _, w'. split_and!.
  - exact Hrun.
  - exact Hr.
  - by rewrite Ht, length_app, length_map, length_seq.
  - by rewrite py_range_offsets, length_map, length_seq.
Qed.

Example iterations_samples :
  iterations 100 = 10%nat ∧ iterations 15 = 2%nat ∧ iterations 1 = 1%nat
  ∧ iterations 0 = 0%nat ∧ iterations (-25) = 0%nat.
Proof. by vm_compute. Qed.

Lemma NoDup_py_range (start stop : Z) : NoDup (py_range start stop per_page).
Proof.
  unfold py_range. apply NoDup_fmap_2; [| apply NoDup_seq].
  intros j k H. unfold per_page in H. lia.
Qed.

(** C1, as the code has it: an iteration whose reply has status 429 prints the
    rate-limit message, sleeps 10 seconds and ends without adding anything;
    the loop then takes the next offset.  Over a whole run the offsets of
    the range are requested once each, in order, none repeated, and the
    result is the concatenation of what each reply contributes. *)
Theorem rate_limited_offset_is_passed_over
    (env : Env) (user_id : string) (off : Z) (acc : list Json) (w : World)
    (response : Response) :
  http env (requests w) (ListingUrl user_id per_page off) = Ret response →
  status_code response = 429 →
  fetch_page env user_id off acc w =
    (Ret acc,
     {| trace := trace w ++ [EvGet (ListingUrl user_id per_page off);
                             EvPrint (MsgRateLimited off); EvSleep 10];
        files := files w;
        requests := S (requests w) |})
  ∧ page_items (Ret response) = []
  ∧ ∀ limit offset w0, ∃ beatmaps w',
      retrieve_most_played_beatmaps env user_id limit offset w0 = (Ret beatmaps, w')
      ∧ gets (trace w') =
          gets (trace w0) ++
          map (ListingUrl user_id per_page) (py_range offset (offset + limit) per_page)
      ∧ NoDup (py_range offset (offset + limit) per_page)
      ∧ beatmaps =
          concat (map (λ k : nat,
            page_items (http env (requests w0 + k)%nat
              (ListingUrl user_id per_page (nth_offset offset k))))
            (seq 0 (iterations limit))).
Proof.
  intros Hreply H429. split_and!.
  - unfold fetch_page, try_except, requests_get, mbind, M_bind. rewrite Hreply.
    rewrite H429. simpl. unfold emit. simpl. by rewrite <- !app_assoc.
  - unfold page_items. by rewrite H429.
  - intros limit offset w0.
    destruct (retrieve_run env user_id limit offset w0) as (w' & Hrun & Ht & _).
    eexists _, w'. split_and!; [exact Hrun | | apply NoDup_py_range | done].
    by rewrite Ht, py_range_offsets, <- list_fmap_compose.
Qed.

Lemma rate_limited_offset_is_passed_over_witness :
  let w := Samples.start in
  let env := Samples.rate_limited_once in
  fetch_page env "12345" 0 [] w =
    (Ret [],
     {| trace := [EvGet (ListingUrl "12345" 10 0);
                  EvPrint (MsgRateLimited 0); EvSleep 10];
        files := ∅;
        requests := 1 |}).
Proof.
  intros w env.
  refine (proj1 (rate_limited_offset_is_passed_over env "12345" 0 [] w
                   {| status_code := 429; content_length := LengthAbsent;
                      json_body := None; chunks := []; stream_error := None |}
                   _ _)); reflexivity.
Defined.

(** C1, as stated, fails: the first request (offset 0) is answered 429 and
    every later one is served, yet offset 0 is requested once only, the next
    request is for offset 10, and the result holds the second page alone. *)
Lemma rate_limited_offset_is_not_retried :
  let run := retrieve_most_played_beatmaps Samples.rate_limited_once "12345" 20 0
               Samples.start in
  http Samples.rate_limited_once 0 (ListingUrl "12345" 10 0)
    = Samples.reply 429 None [] None
  ∧ gets (trace (snd run)) = [ListingUrl "12345" 10 0; ListingUrl "12345" 10 10]
  ∧ fst run = Ret (Samples.page 10)
  ∧ ¬ (∃ u, gets (trace (snd run)) =
            [ListingUrl "12345" 10 0; ListingUrl "12345" 10 0; u]).
Proof.
  split_and!; [reflexivity | by vm_compute | by vm_compute |].
  intros [u Hu]. vm_compute in Hu. discriminate Hu.
Qed.

Lemma length_concat_pages {A : Type} (f : nat → list A) (l : list nat) :
  (∀ k, length (f k) = 10%nat) →
  length (concat (map f l)) = (10 * length l)%nat.
Proof.
  intros Hf. induction l as [|k l IH]; [done |].
  cbn [map concat]. rewrite length_app, Hf, IH. simpl. lia.
Qed.

(** C3, as the code has it: the pages asked for are those at offsets
    [offset], [offset + 10], ... one per iteration, each with page size 10;
    when every request is answered 200 with a list of ten items, the result
    is the pages in request order, each in its own order, [10 * ceil (limit /
    10)] items in all, which is [limit] when [limit] is a non-negative
    multiple of 10. *)
Theorem full_pages_are_concatenated
    (env : Env) (user_id : string) (limit offset : Z) (w : World)
    (pages : nat → Z → list Json) :
  (∀ n off, ∃ response,
      http env n (ListingUrl user_id per_page off) = Ret response
      ∧ status_code response = 200
      ∧ json_body response = Some (JList (pages n off))) →
  (∀ n off, length (pages n off) = 10%nat) →
  ∃ beatmaps w',
    retrieve_most_played_beatmaps env user_id limit offset w = (Ret beatmaps, w')
    ∧ gets (trace w') =
        gets (trace w) ++
        map (λ k, ListingUrl user_id 10 (nth_offset offset k))
            (seq 0 (iterations limit))
    ∧ beatmaps =
        concat (map (λ k : nat, pages (requests w + k)%nat (nth_offset offset k))
                    (seq 0 (iterations limit)))
    ∧ length beatmaps = (10 * iterations limit)%nat
    ∧ (0 ≤ limit → limit `mod` 10 = 0 → Z.of_nat (length beatmaps) = limit).
Proof.
  intros Hok Hlen.
  destruct (retrieve_run env user_id limit offset w) as (w' & Hrun & Ht & _).
  assert (concat (map (λ k : nat,
              page_items (http env (requests w + k)%nat
                (ListingUrl user_id per_page (nth_offset offset k))))
              (seq 0 (iterations limit))) =
          concat (map (λ k : nat, pages (requests w + k)%nat (nth_offset offset k))
                    (seq 0 (iterations limit)))) as Heq.
  { f_equal. apply map_ext. intros k.
    destruct (Hok (requests w + k)%nat (nth_offset offset k))
      as (resp & -> & Hs & Hj).
    unfold page_items. by rewrite Hs, Hj. }
  rewrite Heq in Hrun.
  assert (length (concat (map (λ k : nat,
            pages (requests w + k)%nat (nth_offset offset k))
            (seq 0 (iterations limit)))) = (10 * iterations limit)%nat) as Hl.
  { rewrite (length_concat_pages (λ k, pages (requests w + k)%nat (nth_offset offset k)))
      by (intros; apply Hlen).
    by rewrite length_seq. }
  eexists _, w'. split_and!; [exact Hrun | exact Ht | done | exact Hl |].
  intros Hpos Hmod. rewrite Hl. unfold iterations, ceil_div.
  destruct (Z.ltb_spec 0 limit); Z.to_euclidean_division_equations; lia.
Qed.

Lemma full_pages_are_concatenated_witness :
  ∃ beatmaps w',
    retrieve_most_played_beatmaps Samples.full_pages "12345" 20 0 Samples.start
      = (Ret beatmaps, w')
    ∧ beatmaps = Samples.page 0 ++ Samples.page 10
    ∧ length beatmaps = 20%nat.
Proof.
  destruct (full_pages_are_concatenated Samples.full_pages "12345" 20 0
              Samples.start (λ _ off, Samples.page off))
    as (beatmaps & w' & Hrun & _ & Hb & Hl & _).
  - intros n off. eexists. split_and!; reflexivity.
  - reflexivity.
  - exists beatmaps, w'. split_and!; [exact Hrun | exact Hb | exact Hl].
Defined.

(** C3, as stated, fails when [limit] is not a multiple of 10: with every
    request answered by a full page, a limit of 15 yields two pages, 20
    items. *)
Lemma full_pages_overshoot_limit :
  ∃ beatmaps,
    fst (retrieve_most_played_beatmaps Samples.full_pages "12345" 15 0
           Samples.start) = Ret beatmaps
    ∧ length beatmaps = 20%nat
    ∧ Z.of_nat (length beatmaps) ≠ 15.
Proof. eexists. split_and!; [by vm_compute | by vm_compute | by vm_compute]. Qed.

(** ** The single-item downloader *)

Lemma bind_inv_ret {A B : Type} (m : M A) (f : A → M B) (w w' : World) (b : B) :
  (m ≫= f) w = (Ret b, w') → ∃ a w0, m w = (Ret a, w0) ∧ f a w0 = (Ret b, w').
Proof.
  unfold mbind, M_bind. destruct (m w) as [[a|e] w0]; [eauto | discriminate].
Qed.

Lemma try_except_ret {A : Type} (body : M A) (handler : PyExn → M A)
    (w w' : World) (a : A) :
  body w = (Ret a, w') → try_except body handler w = (Ret a, w').
Proof. intros H. unfold try_except. by rewrite H. Qed.

Lemma try_except_raise {A : Type} (body : M A) (handler : PyExn → M A)
    (w w' : World) (e : PyExn) :
  body w = (Raise e, w') → try_except body handler w = handler e w'.
Proof. intros H. unfold try_except. by rewrite H. Qed.

(** [print] of a message about a download. *)
Lemma print_values_run (env : Env) (beatmapset_id song_title : Json)
    (m : Message) (w : World) :
  print_values env [beatmapset_id; song_title] m w =
  if printable env beatmapset_id song_title
  then (Ret tt, logged (EvPrint m) w)
  else (Raise UnicodeEncodeError, w).
Proof.
  unfold print_values, printable.
  by destruct (forallb (stdout_encodes env) [beatmapset_id; song_title]).
Qed.

(** The handler of [download_single_beatmap]: an exception of the [try]
    block becomes a logged failure, unless the message itself cannot be
    printed. *)
Lemma download_single_beatmap_caught (py_str : Json → string) (env : Env)
    (beatmapset_id song_title : Json) (options : Dict) (w w1 : World) (e : PyExn) :
  download_attempt py_str env beatmapset_id song_title (build_params options) w
    = (Raise e, w1) →
  download_single_beatmap py_str env beatmapset_id song_title options w =
    if printable env beatmapset_id song_title
    then (Ret false,
          logged (EvPrint (MsgDownloadException beatmapset_id song_title e)) w1)
    else (Raise UnicodeEncodeError, w1).
Proof.
  intros H. unfold download_single_beatmap.
  rewrite (try_except_raise _ _ _ _ _ H). unfold mbind, M_bind.
  rewrite print_values_run.
  by destruct (printable env beatmapset_id song_title).
Qed.

Lemma download_single_beatmap_returned (py_str : Json → string) (env : Env)
    (beatmapset_id song_title : Json) (options : Dict) (w w1 : World) (b : bool) :
  download_attempt py_str env beatmapset_id song_title (build_params options) w
    = (Ret b, w1) →
  download_single_beatmap py_str env beatmapset_id song_title options w
    = (Ret b, w1).
Proof.
  intros H. unfold download_single_beatmap. by rewrite (try_except_ret _ _ _ _ _ H).
Qed.

(** The try block raises [UnicodeEncodeError] of its own only when the
    messages cannot be printed. *)
Lemma download_outcomes (py_str : Json → string) (env : Env)
    (beatmapset_id song_title : Json) (options : Dict) (w : World) :
  let run :=
    download_single_beatmap py_str env beatmapset_id song_title options w in
  (printable env beatmapset_id song_title = true → ∃ success, fst run = Ret success)
  ∧ (∀ e, fst run = Raise e →
       e = UnicodeEncodeError ∧ printable env beatmapset_id song_title = false).
Proof.
  intros run. subst run.
  destruct (download_attempt py_str env beatmapset_id song_title
              (build_params options) w) as [[b|e] w1] eqn:H.
  - rewrite (download_single_beatmap_returned _ _ _ _ _ _ _ _ H). simpl.
    split; [by eauto | by intros e [=]].
  - rewrite (download_single_beatmap_caught _ _ _ _ _ _ _ _ H).
    destruct (printable env beatmapset_id song_title); simpl.
    + split; [by eauto | by intros e' [=]].
    + split; [done | by intros e' [= <-]].
Qed.




(** Each source of exceptions ends in the handler: a refused connection, a
    malformed [content-length], a title that is not a string, a failing
    [open], a failing progress bar, a dropped stream, a failing [write]. *)
Example download_single_beatmap_exception_sources :
  let run env title :=
    fst (download_single_beatmap Samples.str_scalar env (JInt 7) title
           Samples.default_options Samples.start) in
  let ok := Samples.full_pages in
  let env_with http_ open_ write_ :=
    {| http := http_; open_error := open_; write_error := write_;
       stdout_encodes := stdout_encodes ok; bar_error := bar_error ok |} in
  run (env_with (λ _ _, Raise RequestException) (open_error ok) (write_error ok))
      (JStr "song") = Ret false
  ∧ run (env_with
           (λ _ _, Ret {| status_code := 200;
                          content_length := LengthMalformed;
                          json_body := None; chunks := [Samples.abc];
                          stream_error := None |})
           (open_error ok) (write_error ok))
        (JStr "song") = Ret false
  ∧ run ok JNull = Ret false
  ∧ run (env_with (http ok) (λ _, Some (OSError 13)) (write_error ok))
        (JStr "song") = Ret false
  ∧ run Samples.oversized_length (JStr "song") = Ret false
  ∧ run Samples.dropped_stream (JStr "song") = Ret false
  ∧ run (env_with (http ok) (open_error ok) (λ _ _, Some (OSError 28)))
        (JStr "song") = Ret false
  ∧ run ok (JStr "song") = Ret true.
Proof. by vm_compute. Qed.

(** With status 200 the [try] block returns [True] or raises. *)
Lemma download_attempt_200 (py_str : Json → string) (env : Env)
    (beatmapset_id song_title : Json) (params : list (string * string))
    (w w1 : World) (response : Response) (b : bool) :
  http env (requests w) (ArchiveUrl beatmapset_id params) = Ret response →
  status_code response = 200 →
  download_attempt py_str env beatmapset_id song_title params w = (Ret b, w1) →
  b = true.
Proof.
  intros Hreply H200 Hrun. unfold download_attempt in Hrun.
  apply bind_inv_ret in Hrun as (resp & w0 & Hget & Hrun).
  unfold requests_get in Hget. rewrite Hreply in Hget. simplify_eq.
  rewrite H200 in Hrun. simpl in Hrun.
  repeat (apply bind_inv_ret in Hrun as (? & ? & _ & Hrun)).
  unfold mret, M_ret in Hrun. congruence.
Qed.

(** With another status the [try] block prints the failure and returns
    [False], or raises when the failure cannot be printed; no file is
    touched. *)
Lemma download_attempt_not_200 (py_str : Json → string) (env : Env)
    (beatmapset_id song_title : Json) (params : list (string * string))
    (w : World) (response : Response) :
  http env (requests w) (ArchiveUrl beatmapset_id params) = Ret response →
  status_code response ≠ 200 →
  let w1 := {| trace := trace w ++ [EvGet (ArchiveUrl beatmapset_id params)];
               files := files w;
               requests := S (requests w) |} in
  download_attempt py_str env beatmapset_id song_title params w =
    if printable env beatmapset_id song_title
    then (Ret false,
          logged (EvPrint (MsgDownloadFailed beatmapset_id song_title
                             (status_code response))) w1)
    else (Raise UnicodeEncodeError, w1).
Proof.
  intros Hreply Hne w1. unfold download_attempt, requests_get.
  unfold mbind at 1, M_bind at 1.
  rewrite Hreply. assert ((status_code response =? 200) = false) as -> by lia.
  unfold mbind, M_bind. rewrite print_values_run. fold w1.
  by destruct (printable env beatmapset_id song_title).
Qed.

(** C2, as the code has it: given a response, the downloader returns success
    exactly when the status is 200 and nothing raises while the body is
    saved (the progress bar included); with any other status no file is
    touched, and the result is failure with the status printed, provided
    standard output can encode the identifier and the title: when it cannot,
    the [print] of line 51 raises, the handler's [print] raises in turn, and
    [UnicodeEncodeError] leaves the function. *)
Theorem download_succeeds_iff_200_and_saved (py_str : Json → string) (env : Env)
    (beatmapset_id song_title : Json) (options : Dict) (w : World)
    (response : Response) :
  http env (requests w) (ArchiveUrl beatmapset_id (build_params options))
    = Ret response →
  let attempt :=
    download_attempt py_str env beatmapset_id song_title (build_params options) w in
  let run :=
    download_single_beatmap py_str env beatmapset_id song_title options w in
  let requested :=
    trace w ++ [EvGet (ArchiveUrl beatmapset_id (build_params options))] in
  (fst run = Ret true ↔
     status_code response = 200 ∧ ∀ e, fst attempt ≠ Raise e)
  ∧ (status_code response ≠ 200 →
     files (snd run) = files w
     ∧ (printable env beatmapset_id song_title = true →
        fst run = Ret false
        ∧ trace (snd run) =
            requested ++ [EvPrint (MsgDownloadFailed beatmapset_id song_title
                                     (status_code response))])
     ∧ (printable env beatmapset_id song_title = false →
        fst run = Raise UnicodeEncodeError ∧ trace (snd run) = requested)).
Proof.
  intros Hreply attempt run requested. split.
  - split.
    + intros Hrun. subst run attempt.
      destruct (download_attempt py_str env beatmapset_id song_title
                  (build_params options) w) as [[b|e] w1] eqn:Hatt.
      * rewrite (download_single_beatmap_returned _ _ _ _ _ _ _ _ Hatt) in Hrun.
        simpl in Hrun.
        destruct (decide (status_code response = 200)) as [H200|Hne].
        { split; [done | intros e; simpl; discriminate]. }
        rewrite (download_attempt_not_200 _ _ _ _ _ _ _ Hreply Hne) in Hatt.
        destruct (printable env beatmapset_id song_title); congruence.
      * rewrite (download_single_beatmap_caught _ _ _ _ _ _ _ _ Hatt) in Hrun.
        by destruct (printable env beatmapset_id song_title).
    + intros [H200 Hno]. subst run attempt.
      destruct (download_attempt py_str env beatmapset_id song_title
                  (build_params options) w) as [[b|e] w1] eqn:Hatt.
      * rewrite (download_single_beatmap_returned _ _ _ _ _ _ _ _ Hatt). simpl.
        by rewrite (download_attempt_200 _ _ _ _ _ _ _ _ _ Hreply H200 Hatt).
      * by destruct (Hno e).
  - intros Hne. subst run requested.
    pose proof (download_attempt_not_200 py_str env beatmapset_id song_title
                  (build_params options) w response Hreply Hne) as Hatt.
    cbv zeta in Hatt.
    destruct (printable env beatmapset_id song_title) eqn:Hp.
    + rewrite (download_single_beatmap_returned _ _ _ _ _ _ _ _ Hatt).
      split_and!; [done | | done]. intros _. split; [done |].
      simpl. by rewrite <- app_assoc.
    + rewrite (download_single_beatmap_caught _ _ _ _ _ _ _ _ Hatt), Hp.
      split_and!; [done | done |]. by intros _.
Qed.

Lemma download_succeeds_iff_200_and_saved_witness :
  let run env :=
    download_single_beatmap Samples.str_scalar env (JInt 2) (JStr "song")
      Samples.default_options Samples.start in
  fst (run Samples.second_missing) = Ret false
  ∧ files (snd (run Samples.second_missing)) = ∅.
Proof.
  intros run.
  destruct (download_succeeds_iff_200_and_saved Samples.str_scalar
              Samples.second_missing (JInt 2) (JStr "song")
              Samples.default_options Samples.start
              {| status_code := 404; content_length := LengthAbsent;
                 json_body := None; chunks := []; stream_error := None |}
              eq_refl) as [_ H404].
  destruct H404 as (Hfiles & Hfail & _); [by vm_compute |].
  split; [exact (proj1 (Hfail eq_refl)) | exact Hfiles].
Defined.

(** C2, as stated, fails in the [if] direction: the server answers 200 and
    the connection drops after the first chunk; the downloader returns
    failure, and the file it opened keeps the bytes received. *)
Lemma status_200_need_not_succeed :
  let run :=
    download_single_beatmap Samples.str_scalar Samples.dropped_stream (JInt 7)
      (JStr "so/ng") Samples.default_options Samples.start in
  (∃ response,
     http Samples.dropped_stream 0
          (ArchiveUrl (JInt 7) (build_params Samples.default_options))
       = Ret response
     ∧ status_code response = 200)
  ∧ fst run = Ret false
  ∧ files (snd run) !! "7 - song.osz" = Some (Binary Samples.abc)
  ∧ ¬ (fst run = Ret true ↔ (200 : Z) = 200).
Proof.
  split_and!.
  - eexists. split; reflexivity.
  - by vm_compute.
  - by vm_compute.
  - intros [_ H]. specialize (H eq_refl). vm_compute in H. discriminate H.
Qed.

(** With a status other than 200 and a title the console cannot encode, the
    call does not return failure: it raises. *)
Example status_404_can_raise :
  fst (download_single_beatmap Samples.str_scalar Samples.ascii_console (JInt 2)
         Samples.accented_title Samples.default_options Samples.start)
    = Raise UnicodeEncodeError.
Proof. by vm_compute. Qed.

Example build_params_default :
  build_params Samples.default_options =
  [("nohitsound", "false"); ("nostoryboard", "false");
   ("nobg", "false"); ("novideo", "true")].
Proof. reflexivity. Qed.

(** ** The batch downloader: reading a record *)

Lemma dict_lookup_remove_eq {V : Type} (d : list (string * V)) (key : string) :
  dict_lookup (dict_remove d key) key = None.
Proof.
  induction d as [|[k v] d IH]; [done |]. unfold dict_remove in *. simpl.
  destruct (String.eqb k key) eqn:Hk; simpl; [done |]. by rewrite Hk.
Qed.

Lemma dict_lookup_remove_ne {V : Type} (d : list (string * V)) (key key' : string) :
  key ≠ key' → dict_lookup (dict_remove d key) key' = dict_lookup d key'.
Proof.
  intros Hne. induction d as [|[k v] d IH]; [done |]. unfold dict_remove in *.
  simpl. destruct (String.eqb k key) eqn:Hk; simpl.
  - apply String.eqb_eq in Hk as ->.
    by destruct (String.eqb_spec key key').
  - by rewrite IH.
Qed.

Lemma dict_get_remove_ne {V : Type} (d : list (string * V)) (key key' : string)
    (default : V) :
  key ≠ key' → dict_get (dict_remove d key) key' default = dict_get d key' default.
Proof. intros Hne. unfold dict_get. by rewrite dict_lookup_remove_ne. Qed.

Lemma dict_get_remove_eq {V : Type} (d : list (string * V)) (key : string)
    (default : V) :
  dict_get (dict_remove d key) key default = default.
Proof. unfold dict_get. by rewrite dict_lookup_remove_eq. Qed.

(** The nested object the loop selects from a dict record, and what it
    does with it. *)
Lemma download_record_dict (py_str : Json → string) (env : Env) (total : nat)
    (options : Dict) (i : Z) (d : Dict) (failed : list Json) (w : World) :
  download_record py_str env total options (i, JDict d) failed w =
  let first := dict_get d "beatmapset" JNull in
  let beatmapset := if truthy first then first else dict_get d "beatmap" JNull in
  if truthy beatmapset
  then download_from py_str env total options i beatmapset failed w
  else (Ret (failed ++ [JNull]), logged (EvPrint (MsgSkipMissingData i)) w).
Proof.
  unfold download_record, py_or, py_get, mbind, M_bind, mret, M_ret. simpl.
  destruct (truthy (dict_get d "beatmapset" JNull)) eqn:H1; simpl.
  - by rewrite H1.
  - by destruct (truthy (dict_get d "beatmap" JNull)).
Qed.

(** The identifier and the title the loop reads from a dict. *)
Lemma download_from_dict (py_str : Json → string) (env : Env) (total : nat)
    (options : Dict) (i : Z) (nd : Dict) (failed : list Json) (w : World) :
  download_from py_str env total options i (JDict nd) failed w =
  let first := dict_get nd "id" JNull in
  let beatmapset_id :=
    if truthy first then first else dict_get nd "beatmapset_id" JNull in
  let song_title := dict_get nd "title" (JStr "Unknown Title") in
  if truthy beatmapset_id
  then attempt_download py_str env total i beatmapset_id song_title options failed w
  else (Ret (failed ++ [JNull]), logged (EvPrint (MsgSkipMissingId i)) w).
Proof.
  unfold download_from, py_or, py_get, mbind, M_bind, mret, M_ret. simpl.
  destruct (truthy (dict_get nd "id" JNull)) eqn:H1; simpl.
  - by rewrite H1.
  - by destruct (truthy (dict_get nd "beatmapset_id" JNull)).
Qed.

(** Resolves the lookups and truth tests of a goal from the equations in
    the context. *)
Ltac pick_branch :=
  repeat (cbn [truthy];
          match goal with
          | H : dict_lookup _ _ = _ |- _ => rewrite H
          | H : truthy _ = _ |- _ => rewrite H
          end);
  cbn [truthy].





(** ** The batch downloader: the failure report *)

Lemma for_each_invariant {A S : Type} (P : S → Prop) (body : A → S → M S)
    (xs : list A) :
  (∀ x s w s' w', P s → body x s w = (Ret s', w') → P s') →
  ∀ s w s' w', P s → for_each xs body s w = (Ret s', w') → P s'.
Proof.
  intros Hbody. induction xs as [|x xs IH]; intros s w s' w' Hs Hrun.
  - cbn [for_each] in Hrun. unfold mret, M_ret in Hrun. by simplify_eq.
  - cbn [for_each] in Hrun.
    apply bind_inv_ret in Hrun as (s1 & w1 & Hx & Hrun). eauto.
Qed.

Lemma entry_ok_null : entry_ok JNull.
Proof. done. Qed.

Lemma entry_ok_truthy (x : Json) : truthy x = true → entry_ok x.
Proof. unfold entry_ok. intros Hx. by destruct x. Qed.

Lemma attempt_download_failed (py_str : Json → string) (env : Env) (total : nat)
    (i : Z) (beatmapset_id song_title : Json) (options : Dict)
    (failed failed' : list Json) (w w' : World) :
  attempt_download py_str env total i beatmapset_id song_title options failed w
    = (Ret failed', w') →
  failed' = failed ∨ failed' = failed ++ [beatmapset_id].
Proof.
  unfold attempt_download. intros Hrun.
  apply bind_inv_ret in Hrun as (? & ? & _ & Hrun).
  apply bind_inv_ret in Hrun as (success & ? & _ & Hrun).
  apply bind_inv_ret in Hrun as (? & ? & _ & Hrun).
  unfold mret, M_ret in Hrun. destruct success; simplify_eq; auto.
Qed.

Lemma download_record_entries (py_str : Json → string) (env : Env) (total : nat)
    (options : Dict) (entry : Z * Json) (failed failed' : list Json)
    (w w' : World) :
  Forall entry_ok failed →
  download_record py_str env total options entry failed w = (Ret failed', w') →
  Forall entry_ok failed'.
Proof.
  intros Hok Hrun. destruct entry as [i beatmap]. unfold download_record in Hrun.
  apply bind_inv_ret in Hrun as (beatmapset & w1 & _ & Hrun).
  destruct (truthy beatmapset); simpl in Hrun.
  - unfold download_from in Hrun.
    apply bind_inv_ret in Hrun as (beatmapset_id & w2 & _ & Hrun).
    apply bind_inv_ret in Hrun as (song_title & w3 & _ & Hrun).
    destruct (truthy beatmapset_id) eqn:Hid; simpl in Hrun.
    + apply attempt_download_failed in Hrun as [-> | ->]; [done |].
      apply Forall_app. split; [done |].
      apply Forall_singleton. by apply entry_ok_truthy.
    + apply bind_inv_ret in Hrun as (? & ? & _ & Hrun).
      unfold mret, M_ret in Hrun. simplify_eq.
      apply Forall_app. split; [done |]. apply Forall_singleton, entry_ok_null.
  - apply bind_inv_ret in Hrun as (? & ? & _ & Hrun).
    unfold mret, M_ret in Hrun. simplify_eq.
    apply Forall_app. split; [done |]. apply Forall_singleton, entry_ok_null.
Qed.

Lemma download_all_entries (py_str : Json → string) (env : Env)
    (beatmaps : list Json) (options : Dict) (failed : list Json) (w w' : World) :
  download_all py_str env beatmaps options w = (Ret failed, w') →
  Forall entry_ok failed.
Proof.
  unfold download_all. intros Hrun.
  eapply (for_each_invariant (Forall entry_ok)); [| | exact Hrun]; [| done].
  intros x s w0 s' w0' Hs Hx. by eapply download_record_entries.
Qed.

Lemma append_cons (c : ascii) (s t : string) :
  String c s +:+ t = String c (s +:+ t).
Proof. reflexivity. Qed.

Lemma append_assoc (s t u : string) : (s +:+ t) +:+ u = s +:+ t +:+ u.
Proof. induction s as [|c s IH]; [done |]. by rewrite !append_cons, IH. Qed.

Lemma append_empty_r (s : string) : s +:+ EmptyString = s.
Proof. induction s as [|c s IH]; [done |]. by rewrite append_cons, IH. Qed.

Lemma report_text_cons (py_str : Json → string) (fail : Json) (failed : list Json) :
  report_text py_str (fail :: failed) =
  if is_null fail then report_text py_str failed
  else py_str fail +:+ newline +:+ report_text py_str failed.
Proof. unfold report_text. simpl. by destruct (is_null fail). Qed.

(** The loop that writes the report, started on a file that holds [written]. *)
Lemma report_lines_run (py_str : Json → string) (env : Env) (failed : list Json) :
  (∀ n, write_error env report_name n = None) →
  Forall entry_ok failed →
  ∀ (written : string) (w : World),
    files w !! report_name = Some (Text written) →
    for_each failed (report_line py_str env) written w =
      (Ret (written +:+ report_text py_str failed),
       {| trace := trace w;
          files := <[report_name := Text (written +:+ report_text py_str failed)]>
                     (files w);
          requests := requests w |}).
Proof.
  intros Hwrite Hok. induction Hok as [|fail failed Hfail _ IH];
    intros written w Hfile.
  - cbn [for_each]. unfold report_text. simpl. rewrite append_empty_r.
    rewrite insert_id by done. by destruct w.
  - cbn [for_each]. rewrite report_text_cons. unfold entry_ok in Hfail.
    destruct (is_null fail) eqn:Hnull.
    + assert (report_line py_str env fail written w = (Ret written, w)) as Hstep.
      { unfold report_line. by rewrite Hfail. }
      rewrite (bind_ret _ _ _ _ _ Hstep). by apply IH.
    + assert (report_line py_str env fail written w =
                (Ret (written +:+ py_str fail +:+ newline),
                 {| trace := trace w;
                    files := <[report_name :=
                                 Text (written +:+ py_str fail +:+ newline)]>
                               (files w);
                    requests := requests w |})) as Hstep.
      { unfold report_line, write_text. rewrite Hfail, Hwrite. done. }
      rewrite (bind_ret _ _ _ _ _ Hstep).
      rewrite IH by (simpl; apply lookup_insert_eq).
      simpl. rewrite insert_insert_eq, !append_assoc. done.
Qed.



(** A batch in which nothing fails leaves no report behind. *)
Example no_failure_no_report :
  let run :=
    download_beatmaps Samples.str_scalar Samples.full_pages
      [Samples.record 1 "first"; Samples.record 2 "second"]
      Samples.default_options Samples.start in
  fst run = Ret tt
  ∧ files (snd run) !! report_name = None
  ∧ files (snd run) !! "1 - first.osz" = Some (Binary Samples.abc)
  ∧ files (snd run) !! "2 - second.osz" = Some (Binary Samples.abc).
Proof. by vm_compute. Qed.

(** A record that is not a dict makes [.get] raise, and nothing in
    [download_beatmaps] catches it. *)
Example non_dict_record_raises :
  fst (download_beatmaps Samples.str_scalar Samples.full_pages [JInt 5]
         Samples.default_options Samples.start) = Raise AttributeError.
Proof. reflexivity. Qed.

(** * Further properties *)

(** ** Requests and sleeping time of a computation *)

Lemma slept_app (t1 t2 : list Event) : slept (t1 ++ t2) = slept t1 + slept t2.
Proof.
  induction t1 as [|[] t1 IH]; simpl; rewrite ?IH; lia.
Qed.

Section Effects.
Context {A B : Type}.

Lemma effect_weaken (m : M A) (P Q : Outcome A → list Url → Z → Prop) :
  effect m P → (∀ o urls s, P o urls s → Q o urls s) → effect m Q.
Proof.
  intros Hm HPQ w. destruct (Hm w) as (evs & Ht & Hr & HP). eauto.
Qed.

Lemma effect_ret (a : A) (P : Outcome A → list Url → Z → Prop) :
  P (Ret a) [] 0 → effect (mret a) P.
Proof.
  intros HP w. exists []. simpl. by rewrite app_nil_r, Nat.add_0_r.
Qed.

Lemma effect_raise (e : PyExn) (P : Outcome A → list Url → Z → Prop) :
  P (Raise e) [] 0 → effect (raise e) P.
Proof.
  intros HP w. exists []. simpl. by rewrite app_nil_r, Nat.add_0_r.
Qed.

Lemma effect_bind (m : M A) (f : A → M B)
    (P : Outcome A → list Url → Z → Prop)
    (Q : A → Outcome B → list Url → Z → Prop)
    (R : Outcome B → list Url → Z → Prop) :
  effect m P →
  (∀ a, effect (f a) (Q a)) →
  (∀ e urls s, P (Raise e) urls s → R (Raise e) urls s) →
  (∀ a o urls1 s1 urls2 s2,
     P (Ret a) urls1 s1 → Q a o urls2 s2 → R o (urls1 ++ urls2) (s1 + s2)) →
  effect (m ≫= f) R.
Proof.
  intros Hm Hf Hraise Hseq w. unfold mbind, M_bind.
  destruct (Hm w) as (evs1 & Ht1 & Hr1 & HP).
  destruct (m w) as [[a|e] w1]; simpl in *.
  - destruct (Hf a w1) as (evs2 & Ht2 & Hr2 & HQ).
    exists (evs1 ++ evs2). rewrite Ht2, Ht1, Hr2, Hr1, gets_app, slept_app.
    rewrite length_app, app_assoc. split_and!; [done | lia | by eapply Hseq].
  - exists evs1. auto.
Qed.

Lemma effect_try_except (body : M A) (handler : PyExn → M A)
    (P : Outcome A → list Url → Z → Prop)
    (Q : PyExn → Outcome A → list Url → Z → Prop)
    (R : Outcome A → list Url → Z → Prop) :
  effect body P →
  (∀ e, effect (handler e) (Q e)) →
  (∀ a urls s, P (Ret a) urls s → R (Ret a) urls s) →
  (∀ e o urls1 s1 urls2 s2,
     P (Raise e) urls1 s1 → Q e o urls2 s2 → R o (urls1 ++ urls2) (s1 + s2)) →
  effect (try_except body handler) R.
Proof.
  intros Hm Hh Hret Hseq w. unfold try_except.
  destruct (Hm w) as (evs1 & Ht1 & Hr1 & HP).
  destruct (body w) as [[a|e] w1]; simpl in *.
  - exists evs1. auto.
  - destruct (Hh e w1) as (evs2 & Ht2 & Hr2 & HQ).
    exists (evs1 ++ evs2). rewrite Ht2, Ht1, Hr2, Hr1, gets_app, slept_app.
    rewrite length_app, app_assoc. split_and!; [done | lia | by eapply Hseq].
Qed.

End Effects.

Lemma quiet_nil : quiet [] 0.
Proof. done. Qed.

Lemma quiet_app (urls1 urls2 : list Url) (s1 s2 : Z) :
  quiet urls1 s1 → quiet urls2 s2 → quiet (urls1 ++ urls2) (s1 + s2).
Proof. by intros [-> ->] [-> ->]. Qed.

(** The primitives. *)
Lemma effect_emit (ev : Event) :
  gets [ev] = [] →
  effect (emit ev) (λ o urls s, returns o ∧ urls = [] ∧ s = slept [ev]).
Proof.
  intros Hev w. exists [ev]. unfold emit, returns.
  cbn [fst snd trace requests]. rewrite Hev. cbn [length].
  split_and!; [done | lia | by eexists | done | done].
Qed.

Lemma effect_print (m : Message) :
  effect (print m) (λ o urls s, returns o ∧ quiet urls s).
Proof.
  eapply effect_weaken; [by apply effect_emit |].
  by intros o urls s (? & -> & ->).
Qed.

Lemma effect_progress (desc : string) (total : Z) (n : nat) :
  effect (emit (EvProgress desc total n)) (λ o urls s, returns o ∧ quiet urls s).
Proof.
  eapply effect_weaken; [by apply effect_emit |].
  by intros o urls s (? & -> & ->).
Qed.

Lemma effect_sleep (seconds : Z) :
  effect (sleep seconds) (λ o urls s, returns o ∧ urls = [] ∧ s = seconds).
Proof.
  eapply effect_weaken; [by apply effect_emit |].
  intros o urls s (? & -> & ->). simpl. split_and!; [done | done | lia].
Qed.

Lemma effect_requests_get (env : Env) (url : Url) :
  effect (requests_get env url) (λ _ urls s, urls = [url] ∧ s = 0).
Proof.
  intros w. exists [EvGet url]. unfold requests_get. simpl.
  split_and!; [done | lia | done | done].
Qed.

Lemma effect_set_file (name : string) (data : FileData) :
  effect (set_file name data) (λ o urls s, returns o ∧ quiet urls s).
Proof.
  intros w. exists []. unfold set_file, returns. simpl. rewrite app_nil_r.
  split_and!; [done | lia | by eexists | done].
Qed.

(** Forgetting the outcome. *)
Lemma effect_quiet_of {A : Type} (m : M A) :
  effect m (λ o urls s, returns o ∧ quiet urls s) → effect m (λ _, quiet).
Proof. intros H. eapply effect_weaken; [exact H |]. by intros o urls s [_ ?]. Qed.

(** Sequencing two quiet computations. *)
Lemma effect_bind_quiet {A B : Type} (m : M A) (f : A → M B) :
  effect m (λ _, quiet) → (∀ a, effect (f a) (λ _, quiet)) →
  effect (m ≫= f) (λ _, quiet).
Proof.
  intros Hm Hf.
  eapply effect_bind with (Q := λ _ _, quiet); [exact Hm | exact Hf | done |].
  intros. by apply quiet_app.
Qed.

Create HintDb effects.

#[local] Hint Resolve effect_print effect_progress effect_set_file
  : effects.

Ltac quiet_steps :=
  repeat first
    [ apply effect_bind_quiet; [| intros ?]
    | apply effect_ret; exact quiet_nil
    | apply effect_raise; exact quiet_nil
    | solve [auto with effects]
    | solve [apply effect_quiet_of; auto with effects] ].

Lemma effect_py_get (obj : Json) (key : string) (default : Json) :
  effect (py_get obj key default) (λ _, quiet).
Proof. destruct obj; simpl; quiet_steps. Qed.

Lemma effect_py_or (a b : M Json) :
  effect a (λ _, quiet) → effect b (λ _, quiet) → effect (py_or a b) (λ _, quiet).
Proof.
  intros Ha Hb. unfold py_or. apply effect_bind_quiet; [done |].
  intros x. destruct (truthy x); [quiet_steps | done].
Qed.

Lemma effect_open_for_writing (env : Env) (name : string) (empty : FileData) :
  effect (open_for_writing env name empty) (λ _, quiet).
Proof. unfold open_for_writing. destruct (open_error env name); quiet_steps. Qed.

Lemma effect_write_bytes (env : Env) (name : string) (written chunk : list Byte.byte) :
  effect (write_bytes env name written chunk) (λ _, quiet).
Proof. unfold write_bytes. destruct (write_error env name _); quiet_steps. Qed.

Lemma effect_write_text (env : Env) (name : string) (written s : string) :
  effect (write_text env name written s) (λ _, quiet).
Proof. unfold write_text. destruct (write_error env name _); quiet_steps. Qed.

#[local] Hint Resolve effect_py_get effect_open_for_writing effect_write_bytes
  effect_write_text : effects.

Lemma effect_save_chunks (env : Env) (filename : string) (total_size : Z)
    (cs : list (list Byte.byte)) :
  ∀ written, effect (save_chunks env filename total_size cs written) (λ _, quiet).
Proof.
  induction cs as [|chunk cs IH]; intros written; cbn [save_chunks].
  - quiet_steps.
  - destruct chunk; [apply IH |]. quiet_steps.
Qed.

Lemma print_values_printable (env : Env) (beatmapset_id song_title : Json)
    (m : Message) :
  printable env beatmapset_id song_title = true →
  print_values env [beatmapset_id; song_title] m = print m.
Proof. unfold print_values, printable. by intros ->. Qed.

Lemma print_values_unprintable (env : Env) (beatmapset_id song_title : Json)
    (m : Message) :
  printable env beatmapset_id song_title = false →
  print_values env [beatmapset_id; song_title] m = raise UnicodeEncodeError.
Proof. unfold print_values, printable. by intros ->. Qed.

Lemma effect_print_values (env : Env) (values : list Json) (m : Message) :
  effect (print_values env values m) (λ _, quiet).
Proof.
  unfold print_values. destruct (forallb (stdout_encodes env) values);
    quiet_steps.
Qed.

Lemma effect_progress_bar (env : Env) (desc : string) (total : Z) :
  effect (progress_bar env desc total) (λ _, quiet).
Proof. unfold progress_bar. destruct (bar_error env desc total); quiet_steps. Qed.

#[local] Hint Resolve effect_print_values effect_progress_bar : effects.

Lemma effect_download_attempt (py_str : Json → string) (env : Env)
    (beatmapset_id song_title : Json) (params : list (string * string)) :
  effect (download_attempt py_str env beatmapset_id song_title params)
         (λ _ urls s, urls = [ArchiveUrl beatmapset_id params] ∧ s = 0).
Proof.
  unfold download_attempt.
  eapply effect_bind with (Q := λ _ _, quiet);
    [apply effect_requests_get | | done |].
  - intros response. destruct (status_code response =? 200).
    + unfold total_size_of, sanitize_title, end_of_stream.
      destruct (content_length response), song_title,
        (stream_error response); quiet_steps;
        try apply effect_save_chunks; quiet_steps.
    + quiet_steps.
  - intros a o urls1 s1 urls2 s2 [-> ->] [-> ->]. done.
Qed.

(** The call makes its request and does not sleep; it returns when the
    handler's message can be printed. *)
Lemma effect_download_single_beatmap (py_str : Json → string) (env : Env)
    (beatmapset_id song_title : Json) (options : Dict) :
  effect (download_single_beatmap py_str env beatmapset_id song_title options)
         (λ o urls s,
            (printable env beatmapset_id song_title = true → returns o)
            ∧ urls = [ArchiveUrl beatmapset_id (build_params options)]
            ∧ s = 0).
Proof.
  unfold download_single_beatmap.
  eapply effect_try_except
    with (Q := λ _ o urls s,
                 (printable env beatmapset_id song_title = true → returns o)
                 ∧ quiet urls s);
    [apply effect_download_attempt | | |].
  - intros e. destruct (printable env beatmapset_id song_title) eqn:Hp.
    + rewrite print_values_printable by done.
      eapply effect_bind with (Q := λ _ o urls s, returns o ∧ quiet urls s);
        [apply effect_print | | by intros ? ? ? [[] _] |].
      * intros _. apply effect_ret. split; [by eexists | done].
      * intros a o urls1 s1 urls2 s2 [_ [-> ->]] [? [-> ->]]. done.
    + eapply effect_weaken with (P := λ _, quiet); [quiet_steps |].
      by intros o urls s Hq.
  - intros a urls s [-> ->]. split_and!; [intros _; by eexists | done | done].
  - intros e o urls1 s1 urls2 s2 [-> ->] [? [-> ->]]. done.
Qed.

Lemma effect_download_single_beatmap_printable (py_str : Json → string)
    (env : Env) (beatmapset_id song_title : Json) (options : Dict) :
  printable env beatmapset_id song_title = true →
  effect (download_single_beatmap py_str env beatmapset_id song_title options)
         (λ o urls s, returns o
            ∧ urls = [ArchiveUrl beatmapset_id (build_params options)]
            ∧ s = 0).
Proof.
  intros Hp. eapply effect_weaken; [apply effect_download_single_beatmap |].
  intros o urls s (Ho & -> & ->). auto.
Qed.

(** X1: whatever the server and the file system do, one call of the
    downloader ends after exactly one request, for the archive of the
    identifier with the parameters of the options, and never sleeps. *)
Theorem download_makes_exactly_one_request (py_str : Json → string) (env : Env)
    (beatmapset_id song_title : Json) (options : Dict) (w : World) :
  let w' := snd (download_single_beatmap py_str env beatmapset_id song_title
                   options w) in
  requests w' = S (requests w)
  ∧ gets (trace w') =
      gets (trace w) ++ [ArchiveUrl beatmapset_id (build_params options)]
  ∧ slept (trace w') = slept (trace w).
Proof.
  intros w'. subst w'.
  destruct (effect_download_single_beatmap py_str env beatmapset_id song_title
              options w) as (evs & Ht & Hr & _ & Hg & Hs).
  rewrite Hr, Ht, gets_app, slept_app, Hg, Hs. simpl.
  split_and!; [lia | done | lia].
Qed.

(** ** Requests and sleeping time of a batch *)

Lemma batch_effect_quiet (params : list (string * string)) (n : nat)
    (urls : list Url) (s : Z) :
  quiet urls s → batch_effect params n urls s.
Proof.
  intros [-> ->]. unfold batch_effect. simpl. split_and!; [lia | done | done].
Qed.

Lemma batch_effect_app (params : list (string * string)) (n1 n2 : nat)
    (urls1 urls2 : list Url) (s1 s2 : Z) :
  batch_effect params n1 urls1 s1 → batch_effect params n2 urls2 s2 →
  batch_effect params (n1 + n2) (urls1 ++ urls2) (s1 + s2).
Proof.
  intros (Hl1 & Ha1 & ->) (Hl2 & Ha2 & ->). unfold batch_effect.
  rewrite length_app, Forall_app. split_and!; [lia | done | done | lia].
Qed.

Lemma batch_effect_mono (params : list (string * string)) (n n' : nat)
    (urls : list Url) (s : Z) :
  (n ≤ n')%nat → batch_effect params n urls s → batch_effect params n' urls s.
Proof.
  intros Hn (Hl & Ha & Hs). unfold batch_effect. split_and!; [lia | done | done].
Qed.

Lemma effect_attempt_download (py_str : Json → string) (env : Env) (total : nat)
    (i : Z) (beatmapset_id song_title : Json) (options : Dict)
    (failed : list Json) :
  effect (attempt_download py_str env total i beatmapset_id song_title options failed)
         (λ o urls s,
            (returns o
             ∧ urls = [ArchiveUrl beatmapset_id (build_params options)]
             ∧ s = 1)
            ∨ (o = Raise UnicodeEncodeError ∧ quiet urls s)).
Proof.
  unfold attempt_download.
  destruct (printable env beatmapset_id song_title) eqn:Hp.
  - rewrite print_values_printable by done.
    eapply effect_weaken with
      (P := λ o urls s, returns o
              ∧ urls = [ArchiveUrl beatmapset_id (build_params options)]
              ∧ s = 1); [| by left].
    eapply effect_bind with
      (Q := λ _ o urls s, returns o
              ∧ urls = [ArchiveUrl beatmapset_id (build_params options)]
              ∧ s = 1);
      [apply effect_print | | by intros ? ? ? [[] _] |].
    + intros _.
      eapply effect_bind with
        (Q := λ _ o urls s, returns o ∧ urls = [] ∧ s = 1);
        [by apply effect_download_single_beatmap_printable | |
         by intros ? ? ? [[] _] |].
      * intros success.
        eapply effect_bind with (Q := λ _ o urls s, returns o ∧ quiet urls s);
          [apply effect_sleep | | by intros ? ? ? [[] _] |].
        -- intros _. apply effect_ret. split; [by eexists | done].
        -- intros a o urls1 s1 urls2 s2 (_ & -> & ->) (? & -> & ->). done.
      * intros a o urls1 s1 urls2 s2 (_ & -> & ->) (? & -> & ->). done.
    + intros a o urls1 s1 urls2 s2 (_ & -> & ->) (? & -> & ->). done.
  - rewrite print_values_unprintable by done.
    intros w. exists []. unfold mbind, M_bind, raise. simpl.
    rewrite app_nil_r. split_and!; [done | lia | by right].
Qed.

Lemma archive_request_singleton (params : list (string * string)) (id : Json) :
  batch_effect params 1 [ArchiveUrl id params] 1.
Proof.
  unfold batch_effect. simpl. split_and!; [lia | | done].
  apply Forall_singleton. by exists id.
Qed.

Lemma effect_download_from (py_str : Json → string) (env : Env) (total : nat)
    (options : Dict) (i : Z) (beatmapset : Json) (failed : list Json) :
  effect (download_from py_str env total options i beatmapset failed)
         (λ _, batch_effect (build_params options) 1).
Proof.
  unfold download_from.
  eapply effect_bind with (P := λ _, quiet)
    (Q := λ _ _, batch_effect (build_params options) 1).
  - apply effect_py_or; apply effect_py_get.
  - intros beatmapset_id.
    eapply effect_bind with (P := λ _, quiet)
      (Q := λ _ _, batch_effect (build_params options) 1);
      [apply effect_py_get | | by intros; apply batch_effect_quiet |].
    + intros song_title. destruct (truthy beatmapset_id); simpl.
      * eapply effect_weaken; [apply effect_attempt_download |].
        intros o urls s [(_ & -> & ->) | [_ Hq]];
          [apply archive_request_singleton | by apply batch_effect_quiet].
      * eapply effect_weaken with (P := λ _, quiet); [quiet_steps |].
        intros. by apply batch_effect_quiet.
    + by intros a o urls1 s1 urls2 s2 [-> ->] H.
  - intros. by apply batch_effect_quiet.
  - by intros a o urls1 s1 urls2 s2 [-> ->] H.
Qed.

Lemma effect_download_record (py_str : Json → string) (env : Env) (total : nat)
    (options : Dict) (entry : Z * Json) (failed : list Json) :
  effect (download_record py_str env total options entry failed)
         (λ _, batch_effect (build_params options) 1).
Proof.
  destruct entry as [i beatmap]. unfold download_record.
  eapply effect_bind with (P := λ _, quiet)
    (Q := λ _ _, batch_effect (build_params options) 1).
  - apply effect_py_or; apply effect_py_get.
  - intros beatmapset. destruct (truthy beatmapset); simpl.
    + apply effect_download_from.
    + eapply effect_weaken with (P := λ _, quiet); [quiet_steps |].
      intros. by apply batch_effect_quiet.
  - intros. by apply batch_effect_quiet.
  - by intros a o urls1 s1 urls2 s2 [-> ->] H.
Qed.

Lemma effect_download_loop (py_str : Json → string) (env : Env) (total : nat)
    (options : Dict) (entries : list (Z * Json)) :
  ∀ failed,
    effect (for_each entries (download_record py_str env total options) failed)
           (λ _, batch_effect (build_params options) (length entries)).
Proof.
  induction entries as [|entry entries IH]; intros failed; cbn [for_each].
  - apply effect_ret. by apply batch_effect_quiet.
  - eapply effect_bind with
      (P := λ _, batch_effect (build_params options) 1)
      (Q := λ _ _, batch_effect (build_params options) (length entries));
      [apply effect_download_record | intros; apply IH | |].
    + intros e urls s H. eapply batch_effect_mono; [| exact H]. simpl. lia.
    + intros a o urls1 s1 urls2 s2 H1 H2.
      by apply (batch_effect_app _ 1 (length entries)).
Qed.

Lemma effect_report_lines (py_str : Json → string) (env : Env)
    (failed : list Json) :
  ∀ written, effect (for_each failed (report_line py_str env) written) (λ _, quiet).
Proof.
  induction failed as [|fail failed IH]; intros written; cbn [for_each].
  - quiet_steps.
  - apply effect_bind_quiet; [| intros; apply IH].
    unfold report_line. destruct (truthy fail); quiet_steps.
Qed.

Lemma effect_write_report (py_str : Json → string) (env : Env)
    (failed : list Json) :
  effect (write_report py_str env failed) (λ _, quiet).
Proof.
  unfold write_report. destruct failed as [|fail failed]; [quiet_steps |].
  apply effect_bind_quiet; [apply effect_open_for_writing | intros _].
  apply effect_bind_quiet; [apply effect_report_lines | intros _].
  apply effect_quiet_of, effect_print.
Qed.

Lemma length_enumerate {A : Type} (xs : list A) :
  ∀ start, length (enumerate start xs) = length xs.
Proof. induction xs as [|x xs IH]; intros start; simpl; [done | by rewrite IH]. Qed.

Lemma effect_download_beatmaps (py_str : Json → string) (env : Env)
    (beatmaps : list Json) (options : Dict) :
  effect (download_beatmaps py_str env beatmaps options)
         (λ _, batch_effect (build_params options) (length beatmaps)).
Proof.
  unfold download_beatmaps, download_all.
  eapply effect_bind with
    (P := λ _, batch_effect (build_params options) (length beatmaps))
    (Q := λ _ _, quiet).
  - rewrite <- (length_enumerate beatmaps 1). apply effect_download_loop.
  - intros failed. apply effect_write_report.
  - done.
  - intros a o urls1 s1 urls2 s2 H [-> ->].
    by rewrite app_nil_r, Z.add_0_r.
Qed.


(** ** More on the fetcher *)

Lemma iterations_nonpositive (limit : Z) : limit ≤ 0 → iterations limit = 0%nat.
Proof. intros H. unfold iterations. by destruct (Z.ltb_spec 0 limit); [lia |]. Qed.

(** X3: with a limit that is not positive the range is empty: the fetcher
    returns the empty list at once, without a request, a message or a
    sleep. *)
Theorem retrieve_nonpositive_limit_does_nothing (env : Env) (user_id : string)
    (limit offset : Z) (w : World) :
  limit ≤ 0 →
  retrieve_most_played_beatmaps env user_id limit offset w = (Ret [], w).
Proof.
  intros Hlimit. unfold retrieve_most_played_beatmaps.
  by rewrite py_range_offsets, iterations_nonpositive.
Qed.

Lemma retrieve_nonpositive_limit_does_nothing_witness :
  retrieve_most_played_beatmaps Samples.full_pages "12345" (-5) 30 Samples.start
    = (Ret [], Samples.start).
Proof.
  apply retrieve_nonpositive_limit_does_nothing. lia.
Defined.

(** One iteration, with the time it sleeps. *)
Lemma fetch_page_delay (env : Env) (user_id : string) (off : Z)
    (acc : list Json) (w : World) :
  ∃ acc' evs,
    fetch_page env user_id off acc w =
      (Ret acc',
       {| trace := trace w ++ EvGet (ListingUrl user_id per_page off) :: evs;
          files := files w;
          requests := S (requests w) |})
    ∧ slept evs =
        page_delay (http env (requests w) (ListingUrl user_id per_page off)).
Proof.
  unfold fetch_page, try_except, page_delay, response_json, print, sleep, emit,
    requests_get, raise, mbind, M_bind, mret, M_ret; simpl.
  destruct (http env (requests w) _) as [resp|e]; simpl.
  - destruct (status_code resp =? 429) eqn:H429; simpl.
    { eexists _, _. rewrite <- !app_assoc. simpl. split; reflexivity. }
    destruct (status_code resp =? 200); simpl.
    + destruct (json_body resp) as [[]|]; simpl;
        eexists _, _; rewrite <- !app_assoc; simpl; split; reflexivity.
    + eexists _, _. rewrite <- !app_assoc. simpl. split; reflexivity.
  - eexists _, _. rewrite <- !app_assoc. simpl. split; reflexivity.
Qed.

Lemma fetch_loop_delay (env : Env) (user_id : string) (offs : list Z) :
  ∀ (acc : list Json) (w : World),
  ∃ acc' w',
    for_each offs (fetch_page env user_id) acc w = (Ret acc', w')
    ∧ files w' = files w
    ∧ slept (trace w') =
        slept (trace w) +
        foldr Z.add 0 (imap (λ k off,
          page_delay (http env (requests w + k)%nat
                           (ListingUrl user_id per_page off))) offs).
Proof.
  induction offs as [|off offs IH]; intros acc w.
  - exists acc, w. simpl. split_and!; [done | done | lia].
  - destruct (fetch_page_delay env user_id off acc w) as (acc1 & evs & Hrun & Hevs).
    cbn [for_each]. rewrite (bind_ret _ _ _ _ _ Hrun).
    edestruct IH as (acc' & w' & -> & Hf & Hs). exists acc', w'.
    simpl in Hf, Hs. split_and!; [done | done |].
    rewrite Hs, slept_app. cbn [slept]. rewrite Hevs, imap_cons. cbn [foldr].
    rewrite Nat.add_0_r.
    rewrite (imap_ext (_ ∘ S)
               (λ (k : nat) (off0 : Z),
                  page_delay (http env (S (requests w + k))
                                (ListingUrl user_id per_page off0))) offs);
      [lia |].
    intros k x _. simpl. by rewrite Nat.add_succ_r.
Qed.

Lemma page_delay_bounds (r : Outcome Response) : 0 ≤ page_delay r ≤ 10.
Proof.
  unfold page_delay. destruct r as [resp|]; [| lia].
  destruct (status_code resp =? 429); [lia |].
  destruct (status_code resp =? 200); [| lia].
  destruct (json_body resp) as [[]|]; lia.
Qed.

Lemma sum_delays_bounds {A : Type} (f : A → Z) (l : list A) :
  (∀ x, 0 ≤ f x ≤ 10) →
  0 ≤ foldr Z.add 0 (map f l) ≤ 10 * Z.of_nat (length l).
Proof.
  intros Hf. induction l as [|x l IH]; simpl; [lia |].
  specialize (Hf x). lia.
Qed.

(** X4: the fetcher changes no file, and the time it sleeps is the sum over
    the pages of 10 seconds for a 429 reply, one second for a page it added,
    and nothing for a page it skipped (another status, a body that is not a
    list, an exception); so at most 10 seconds for each page. *)
Theorem retrieve_sleeping_time (env : Env) (user_id : string)
    (limit offset : Z) (w : World) :
  ∃ beatmaps w',
    retrieve_most_played_beatmaps env user_id limit offset w = (Ret beatmaps, w')
    ∧ files w' = files w
    ∧ slept (trace w') - slept (trace w) =
        foldr Z.add 0 (map (λ k : nat,
          page_delay (http env (requests w + k)%nat
            (ListingUrl user_id per_page (nth_offset offset k))))
          (seq 0 (iterations limit)))
    ∧ 0 ≤ slept (trace w') - slept (trace w) ≤ 10 * Z.of_nat (iterations limit).
Proof.
  unfold retrieve_most_played_beatmaps. rewrite py_range_offsets.
  destruct (fetch_loop_delay env user_id
              (map (nth_offset offset) (seq 0 (iterations limit))) [] w)
    as (beatmaps & w' & Hrun & Hf & Hs).
  rewrite imap_map_seq in Hs.
  exists beatmaps, w'. split_and!; [done | done | lia | |];
    rewrite Hs;
    pose proof (sum_delays_bounds
      (λ k : nat, page_delay (http env (requests w + k)%nat
         (ListingUrl user_id per_page (nth_offset offset k))))
      (seq 0 (iterations limit)) (λ k, page_delay_bounds _)) as Hb;
    rewrite length_seq in Hb; lia.
Qed.

Lemma length_concat_le {A : Type} (f : nat → list A) (l : list nat) :
  (∀ k, (length (f k) ≤ 10)%nat) →
  (length (concat (map f l)) ≤ 10 * length l)%nat.
Proof.
  intros Hf. induction l as [|k l IH]; [done |].
  cbn [map concat]. rewrite length_app. specialize (Hf k). simpl. lia.
Qed.

Lemma page_items_le (r : Outcome Response) :
  (∀ response items,
     r = Ret response → json_body response = Some (JList items) →
     (length items ≤ 10)%nat) →
  (length (page_items r) ≤ 10)%nat.
Proof.
  intros H. unfold page_items. destruct r as [resp|]; [| simpl; lia].
  destruct (status_code resp =? 200); [| simpl; lia].
  destruct (json_body resp) as [[]|] eqn:Hj; simpl; try lia. by eapply H.
Qed.

(** X5: when the server never sends more than the ten items asked for, the
    result has at most [10 * ceil (limit / 10)] items, fewer than [limit + 10]
    for a positive limit, however many pages were skipped. *)
Theorem retrieve_result_is_bounded (env : Env) (user_id : string)
    (limit offset : Z) (w : World) :
  (∀ n off response items,
     http env n (ListingUrl user_id per_page off) = Ret response →
     json_body response = Some (JList items) → (length items ≤ 10)%nat) →
  ∃ beatmaps w',
    retrieve_most_played_beatmaps env user_id limit offset w = (Ret beatmaps, w')
    ∧ (length beatmaps ≤ 10 * iterations limit)%nat
    ∧ (0 < limit → Z.of_nat (length beatmaps) < limit + 10).
Proof.
  intros Hserver.
  destruct (retrieve_run env user_id limit offset w) as (w' & Hrun & _).
  eexists _, w'. split; [exact Hrun |].
  assert (length (concat (map (λ k : nat,
            page_items (http env (requests w + k)%nat
              (ListingUrl user_id per_page (nth_offset offset k))))
            (seq 0 (iterations limit)))) ≤ 10 * iterations limit)%nat as Hle.
  { pose proof (length_concat_le
      (λ k : nat, page_items (http env (requests w + k)%nat
         (ListingUrl user_id per_page (nth_offset offset k))))
      (seq 0 (iterations limit))) as Hle.
    rewrite length_seq in Hle. apply Hle.
    intros k. apply page_items_le. intros response items Hr Hj.
    by eapply Hserver. }
  split; [exact Hle |].
  intros Hpos. revert Hle. unfold iterations, ceil_div.
  destruct (Z.ltb_spec 0 limit); [| lia].
  intros Hle. Z.to_euclidean_division_equations. lia.
Qed.

Lemma retrieve_result_is_bounded_witness :
  ∃ beatmaps w',
    retrieve_most_played_beatmaps Samples.rate_limited_once "12345" 25 0
      Samples.start = (Ret beatmaps, w')
    ∧ (length beatmaps ≤ 30)%nat.
Proof.
  destruct (retrieve_result_is_bounded Samples.rate_limited_once "12345" 25 0
              Samples.start) as (beatmaps & w' & Hrun & Hle & _).
  - intros [|n] off response items Hr Hj; injection Hr as <-; simpl in Hj;
      [discriminate |].
    injection Hj as <-. unfold Samples.page. by rewrite length_map, length_seq.
  - exists beatmaps, w'. split; [exact Hrun | exact Hle].
Defined.

(** ** The file the downloader writes *)

(** The streaming loop, started on a file that holds [written]: whatever
    happens, the file ends up holding [written] followed by a prefix of the
    stream, the whole stream when the loop returns. *)
Lemma save_chunks_file (env : Env) (name : string) (total_size : Z)
    (cs : list (list Byte.byte)) :
  ∀ (written : list Byte.byte) (w : World),
    files w !! name = Some (Binary written) →
    ∃ b,
      b `prefix_of` concat cs
      ∧ files (snd (save_chunks env name total_size cs written w)) =
          <[name := Binary (written ++ b)]> (files w)
      ∧ (returns (fst (save_chunks env name total_size cs written w)) →
         b = concat cs)
      ∧ ((∀ n, write_error env name n = None) →
         returns (fst (save_chunks env name total_size cs written w))).
Proof.
  induction cs as [|chunk cs IH]; intros written w Hfile; cbn [save_chunks].
  - exists []. simpl. rewrite app_nil_r, insert_id by done.
    split_and!; [done | done | done | by eexists].
  - destruct chunk as [|c chunk]; [by apply IH |].
    unfold write_bytes.
    destruct (write_error env name (length written)) as [e|] eqn:Hw.
    + exists []. simpl. rewrite app_nil_r, insert_id by done.
      split_and!; [apply prefix_nil | done | by intros [? ?] |].
      intros Hno. by rewrite Hno in Hw.
    + unfold mbind at 1, M_bind at 1, set_file at 1.
      unfold mbind at 1, M_bind at 1, emit at 1.
      set (w1 := {| trace := _; files := _; requests := _ |}).
      destruct (IH (written ++ c :: chunk) w1) as (b & Hb & Hf & Hret & Hok).
      { subst w1. simpl. apply lookup_insert_eq. }
      exists ((c :: chunk) ++ b). cbn [concat].
      split_and!; [by apply prefix_app | | | done].
      * rewrite Hf. subst w1. cbn [files].
        by rewrite insert_insert_eq, <- app_assoc.
      * intros Hr. by rewrite (Hret Hr).
Qed.

(** The call, once the response has status 200 and [open] has succeeded:
    the progress bar, the streaming loop and the end of the stream; a failure
    goes through the handler. *)
Lemma download_after_open (py_str : Json → string) (env : Env)
    (beatmapset_id : Json) (title : string) (options : Dict) (w : World)
    (response : Response) :
  let name := archive_name py_str beatmapset_id title in
  let total_size :=
    match content_length response with LengthInt n => n | _ => 0 end in
  let w1 :=
    {| trace := trace w ++ [EvGet (ArchiveUrl beatmapset_id (build_params options))];
       files := <[name := Binary []]> (files w);
       requests := S (requests w) |} in
  let failure e w2 :=
    if printable env beatmapset_id (JStr title)
    then (Ret false,
          logged (EvPrint (MsgDownloadException beatmapset_id (JStr title) e)) w2)
    else (Raise UnicodeEncodeError, w2) in
  http env (requests w) (ArchiveUrl beatmapset_id (build_params options))
    = Ret response →
  status_code response = 200 →
  content_length response ≠ LengthMalformed →
  open_error env name = None →
  download_single_beatmap py_str env beatmapset_id (JStr title) options w =
    match bar_error env name total_size with
    | Some e => failure e w1
    | None =>
        match save_chunks env name total_size (chunks response) [] w1 with
        | (Ret _, w2) =>
            match stream_error response with
            | None => (Ret true, w2)
            | Some e => failure e w2
            end
        | (Raise e, w2) => failure e w2
        end
    end.
Proof.
  intros name total_size w1 failure Hreply H200 Hlen Hopen.
  assert (∀ e w2,
            (print_values env [beatmapset_id; JStr title]
               (MsgDownloadException beatmapset_id (JStr title) e);;
             mret false) w2 = failure e w2) as Hhandler.
  { intros e w2. unfold mbind, M_bind. rewrite print_values_run. subst failure.
    cbv beta. by destruct (printable env beatmapset_id (JStr title)). }
  unfold download_single_beatmap, try_except, download_attempt, requests_get.
  unfold mbind at 1, M_bind at 1. rewrite Hreply, H200. cbn [Z.eqb Pos.eqb].
  assert (total_size_of response = mret total_size) as ->.
  { unfold total_size_of. subst total_size.
    by destruct (content_length response). }
  unfold mbind at 1, M_bind at 1, mret at 1, M_ret at 1.
  unfold sanitize_title.
  unfold mbind at 1, M_bind at 1, mret at 1, M_ret at 1.
  fold (archive_name py_str beatmapset_id title). fold name.
  unfold open_for_writing. rewrite Hopen.
  unfold mbind at 1, M_bind at 1, set_file at 1.
  cbn [trace files requests]. fold w1.
  unfold mbind at 1, M_bind at 1, progress_bar at 1.
  destruct (bar_error env name total_size) as [e|]; [apply Hhandler |].
  unfold mret at 1, M_ret at 1.
  unfold mbind at 1, M_bind at 1.
  destruct (save_chunks env name total_size (chunks response) [] w1)
    as [[out|e] w2]; [| apply Hhandler].
  unfold end_of_stream. destruct (stream_error response); [apply Hhandler | done].
Qed.



(** Without the hypothesis on the progress bar X6 fails: the server declares
    10^400 bytes, [tqdm] raises once the file is open, and the call returns
    failure with an empty file left behind. *)
Example oversized_length_fails :
  let run :=
    download_single_beatmap Samples.str_scalar Samples.oversized_length (JInt 7)
      (JStr "song") Samples.default_options Samples.start in
  run = (Ret false,
         {| trace := [EvGet (ArchiveUrl (JInt 7)
                               (build_params Samples.default_options));
                      EvPrint (MsgDownloadException (JInt 7) (JStr "song")
                                 OverflowError)];
            files := {["7 - song.osz" := Binary []]};
            requests := 1 |}).
Proof. by vm_compute. Qed.

(** X7: once [open] has succeeded the archive file stays, whatever happens
    next: after the call it holds a prefix of the bytes streamed (all of
    them when the call succeeds), also when the progress bar, a [write] or
    the stream fails; nothing removes the partial file, and no other file
    changes. *)
Theorem download_leaves_what_it_wrote (py_str : Json → string) (env : Env)
    (beatmapset_id : Json) (title : string) (options : Dict) (w : World)
    (response : Response) :
  let name := archive_name py_str beatmapset_id title in
  let run :=
    download_single_beatmap py_str env beatmapset_id (JStr title) options w in
  http env (requests w) (ArchiveUrl beatmapset_id (build_params options))
    = Ret response →
  status_code response = 200 →
  content_length response ≠ LengthMalformed →
  open_error env name = None →
  ∃ b,
    b `prefix_of` body_of response
    ∧ files (snd run) = <[name := Binary b]> (files w)
    ∧ (fst run = Ret true → b = body_of response).
Proof.
  intros name run Hreply H200 Hlen Hopen. subst run.
  rewrite (download_after_open py_str env beatmapset_id title options w
             response Hreply H200 Hlen Hopen).
  fold name.
  set (w1 := {| trace := _; files := _; requests := _ |}).
  set (n := match content_length response with LengthInt n => n | _ => 0 end).
  assert (<[name := Binary []]> (files w1) = <[name := Binary []]> (files w))
    as Hnil by (subst w1; simpl; apply insert_insert_eq).
  destruct (bar_error env name n) as [e|].
  { exists []. split; [apply prefix_nil |].
    assert (files w1 = <[name := Binary []]> (files w)) as Hw1 by done.
    destruct (printable env beatmapset_id (JStr title));
      cbn [fst snd logged files]; rewrite Hw1; (split; [done | by intros [=]]). }
  destruct (save_chunks_file env name n (chunks response) [] w1)
    as (b & Hb & Hf & Hret & _).
  { subst w1. simpl. apply lookup_insert_eq. }
  exists b. split; [exact Hb |].
  assert (<[name := Binary b]> (files w1) = <[name := Binary b]> (files w))
    as Hins by (subst w1; simpl; apply insert_insert_eq).
  destruct (save_chunks env name n (chunks response) [] w1) as [[out|e] w2];
    cbn [fst snd app] in Hf, Hret.
  - destruct (stream_error response).
    + destruct (printable env beatmapset_id (JStr title));
        cbn [fst snd logged files]; rewrite Hf, Hins;
        (split; [done | by intros [=]]).
    + cbn [fst snd]. rewrite Hf, Hins. split; [done |].
      intros _. apply Hret. by eexists.
  - destruct (printable env beatmapset_id (JStr title));
      cbn [fst snd logged files]; rewrite Hf, Hins;
      (split; [done | by intros [=]]).
Qed.

Lemma download_leaves_what_it_wrote_witness :
  let run :=
    download_single_beatmap Samples.str_scalar Samples.dropped_stream (JInt 7)
      (JStr "song") Samples.default_options Samples.start in
  ∃ b,
    b `prefix_of` Samples.abc
    ∧ files (snd run) = {["7 - song.osz" := Binary b]}.
Proof.
  intros run.
  destruct (download_leaves_what_it_wrote Samples.str_scalar
              Samples.dropped_stream (JInt 7) "song" Samples.default_options
              Samples.start
              {| status_code := 200; content_length := LengthAbsent;
                 json_body := None; chunks := [Samples.abc];
                 stream_error := Some RequestException |})
    as (b & Hb & Hfiles & _); [reflexivity | reflexivity | discriminate
                              | reflexivity |].
  exists b. split; [exact Hb | exact Hfiles].
Defined.

(** Runs the primitives left in an equation between a computation and its
    result. *)
Ltac run_out H :=
  unfold print, sleep, emit, raise, set_file, mbind, M_bind, mret, M_ret in H;
  simpl in H; simplify_eq.

(** The [try] block when it fails before [open] is reached: it raises, and
    the files are as they were. *)
Lemma download_attempt_before_open (py_str : Json → string) (env : Env)
    (beatmapset_id song_title : Json) (params : list (string * string))
    (w : World) :
  let reply := http env (requests w) (ArchiveUrl beatmapset_id params) in
  (returns reply → ∃ response,
     reply = Ret response
     ∧ status_code response = 200
     ∧ (content_length response = LengthMalformed
        ∨ (∀ title, song_title ≠ JStr title)
        ∨ ∃ title, song_title = JStr title
                   ∧ is_Some (open_error env
                                (archive_name py_str beatmapset_id title)))) →
  ∃ e w1,
    download_attempt py_str env beatmapset_id song_title params w = (Raise e, w1)
    ∧ files w1 = files w.
Proof.
  intros reply Hcase.
  destruct (download_attempt py_str env beatmapset_id song_title params w)
    as [o w'] eqn:Hrun.
  unfold download_attempt, requests_get in Hrun.
  unfold mbind at 1, M_bind at 1 in Hrun. fold reply in Hrun.
  destruct reply as [response0|e] eqn:Hreply.
  - destruct Hcase as (response & [= <-] & H200 & Hwhy); [by eexists |].
    rewrite H200 in Hrun. cbn [Z.eqb Pos.eqb] in Hrun.
    unfold total_size_of, sanitize_title, open_for_writing in Hrun.
    destruct Hwhy as [Hlen | [Hstr | (title & -> & [e He])]].
    + rewrite Hlen in Hrun. run_out Hrun. by eexists _, _.
    + destruct (content_length response0), song_title as [| | |title| |];
        try (run_out Hrun; by eexists _, _); by destruct (Hstr title).
    + fold (archive_name py_str beatmapset_id title) in He.
      destruct (content_length response0);
        unfold mbind, M_bind, mret, M_ret in Hrun;
        cbn beta iota in Hrun;
        fold (archive_name py_str beatmapset_id title) in Hrun;
        rewrite ?He in Hrun; run_out Hrun; by eexists _, _.
  - run_out Hrun. by eexists _, _.
Qed.



(** The other case of X8: no connection, and a title the console cannot
    encode. *)
Example failing_before_open_can_raise :
  download_single_beatmap Samples.str_scalar Samples.offline_ascii_console
    (JInt 7) Samples.accented_title Samples.default_options Samples.start
  = (Raise UnicodeEncodeError,
     {| trace := [EvGet (ArchiveUrl (JInt 7)
                           (build_params Samples.default_options))];
        files := ∅;
        requests := 1 |}).
Proof. by vm_compute. Qed.

(** ** The failure list and the records *)

Lemma download_record_non_dict (py_str : Json → string) (env : Env) (total : nat)
    (options : Dict) (i : Z) (x : Json) (failed : list Json) (w : World) :
  is_dict x = false →
  download_record py_str env total options (i, x) failed w
    = (Raise AttributeError, w).
Proof. by destruct x. Qed.

Lemma download_from_non_dict (py_str : Json → string) (env : Env) (total : nat)
    (options : Dict) (i : Z) (x : Json) (failed : list Json) (w : World) :
  is_dict x = false →
  download_from py_str env total options i x failed w
    = (Raise AttributeError, w).
Proof. by destruct x. Qed.

(** The iteration on a dict record, in terms of the nested object. *)
Lemma download_record_nested (py_str : Json → string) (env : Env) (total : nat)
    (options : Dict) (i : Z) (d : Dict) (failed : list Json) (w : World) :
  download_record py_str env total options (i, JDict d) failed w =
  if truthy (nested_of d)
  then download_from py_str env total options i (nested_of d) failed w
  else (Ret (failed ++ [JNull]), logged (EvPrint (MsgSkipMissingData i)) w).
Proof. apply download_record_dict. Qed.

Lemma download_from_id (py_str : Json → string) (env : Env) (total : nat)
    (options : Dict) (i : Z) (nd : Dict) (failed : list Json) (w : World) :
  download_from py_str env total options i (JDict nd) failed w =
  if truthy (id_of nd)
  then attempt_download py_str env total i (id_of nd)
         (dict_get nd "title" (JStr "Unknown Title")) options failed w
  else (Ret (failed ++ [JNull]), logged (EvPrint (MsgSkipMissingId i)) w).
Proof. apply download_from_dict. Qed.

Lemma download_record_entry (py_str : Json → string) (env : Env) (total : nat)
    (options : Dict) (i : Z) (x : Json) (failed failed' : list Json)
    (w w' : World) :
  download_record py_str env total options (i, x) failed w = (Ret failed', w') →
  failed' = failed ∨ failed' = failed ++ [failure_entry x].
Proof.
  intros Hrun. destruct (is_dict x) eqn:Hx;
    [| by rewrite download_record_non_dict in Hrun].
  destruct x as [| | | | |d]; try done.
  rewrite download_record_nested in Hrun. unfold failure_entry.
  destruct (truthy (nested_of d)) eqn:Hn.
  - destruct (is_dict (nested_of d)) eqn:Hd;
      [| by rewrite download_from_non_dict in Hrun].
    destruct (nested_of d) as [| | | | |nd]; try done.
    rewrite download_from_id in Hrun.
    destruct (truthy (id_of nd)) eqn:Hid; simpl.
    + by apply attempt_download_failed in Hrun.
    + right. by simplify_eq.
  - right. simplify_eq. by destruct (nested_of d).
Qed.

Lemma download_loop_entries (py_str : Json → string) (env : Env) (total : nat)
    (options : Dict) (entries : list (Z * Json)) :
  ∀ (failed failed' : list Json) (w w' : World),
    for_each entries (download_record py_str env total options) failed w
      = (Ret failed', w') →
    ∃ tail, failed' = failed ++ tail
            ∧ tail `sublist_of` map (λ e, failure_entry (snd e)) entries.
Proof.
  induction entries as [|[i x] entries IH]; intros failed failed' w w' Hrun;
    cbn [for_each] in Hrun.
  - exists []. rewrite app_nil_r. unfold mret, M_ret in Hrun. by simplify_eq.
  - apply bind_inv_ret in Hrun as (failed1 & w1 & Hx & Hrun).
    apply IH in Hrun as (tail & -> & Hsub). cbn [map snd].
    apply download_record_entry in Hx as [-> | ->].
    + exists tail. split; [done | by apply sublist_cons].
    + exists (failure_entry x :: tail). rewrite <- app_assoc.
      split; [done | by apply sublist_skip].
Qed.

Lemma map_snd_enumerate {A : Type} (xs : list A) :
  ∀ start, map snd (enumerate start xs) = xs.
Proof. induction xs as [|x xs IH]; intros start; simpl; [done | by rewrite IH]. Qed.

(** X9: the failure list a batch builds follows the batch: its entries are,
    in the order of the records, entries of records of the batch, each the
    record's own identifier or the placeholder; no record adds more than one
    entry. *)
Theorem failures_follow_the_batch (py_str : Json → string) (env : Env)
    (beatmaps : list Json) (options : Dict) (failed : list Json) (w w' : World) :
  download_all py_str env beatmaps options w = (Ret failed, w') →
  failed `sublist_of` map failure_entry beatmaps.
Proof.
  unfold download_all. intros Hrun.
  apply download_loop_entries in Hrun as (tail & -> & Hsub).
  rewrite <- (map_snd_enumerate beatmaps 1), <- list_fmap_compose at 1.
  exact Hsub.
Qed.

Lemma failures_follow_the_batch_witness :
  let batch := [Samples.record 1 "first"; Samples.record 2 "second";
                JDict [("beatmap", JInt 0)]; Samples.record 3 "third"] in
  [JInt 2; JNull] `sublist_of` map failure_entry batch.
Proof.
  intros batch.
  apply (failures_follow_the_batch Samples.str_scalar Samples.second_missing
           batch Samples.default_options [JInt 2; JNull] Samples.start
           (snd (download_all Samples.str_scalar Samples.second_missing batch
                   Samples.default_options Samples.start))).
  by vm_compute.
Defined.

Lemma bind_raise_eq {A B : Type} (m : M A) (f : A → M B) (w w' : World)
    (e : PyExn) :
  m w = (Raise e, w') → (m ≫= f) w = (Raise e, w').
Proof. intros H. unfold mbind, M_bind. by rewrite H. Qed.

Lemma attempt_download_returns (py_str : Json → string) (env : Env) (total : nat)
    (i : Z) (beatmapset_id song_title : Json) (options : Dict)
    (failed : list Json) (w : World) :
  printable env beatmapset_id song_title = true →
  returns (fst (attempt_download py_str env total i beatmapset_id song_title
                  options failed w)).
Proof.
  intros Hp.
  destruct (effect_attempt_download py_str env total i beatmapset_id
              song_title options failed w) as (evs & _ & _ & [[? _] | [He _]]);
    [done |].
  exfalso. revert He. unfold attempt_download.
  rewrite print_values_printable by done.
  unfold mbind at 1, M_bind at 1, print at 1, emit at 1.
  unfold mbind at 1, M_bind at 1.
  set (w1 := {| trace := _; files := _; requests := _ |}).
  destruct (download_outcomes py_str env beatmapset_id song_title options w1)
    as [Hret _].
  destruct (Hret Hp) as [success Hs].
  destruct (download_single_beatmap py_str env beatmapset_id song_title
              options w1) as [o w2].
  simpl in Hs. subst o. done.
Qed.

Lemma attempt_download_unprintable (py_str : Json → string) (env : Env)
    (total : nat) (i : Z) (beatmapset_id song_title : Json) (options : Dict)
    (failed : list Json) (w : World) :
  printable env beatmapset_id song_title = false →
  attempt_download py_str env total i beatmapset_id song_title options failed w
    = (Raise UnicodeEncodeError, w).
Proof.
  intros Hp. unfold attempt_download.
  by rewrite print_values_unprintable by done.
Qed.

Lemma download_record_malformed (py_str : Json → string) (env : Env)
    (total : nat) (options : Dict) (i : Z) (x : Json) (failed : list Json)
    (w : World) :
  malformed x = true →
  download_record py_str env total options (i, x) failed w
    = (Raise AttributeError, w).
Proof.
  intros Hx. destruct (is_dict x) eqn:Hd;
    [| by apply download_record_non_dict].
  destruct x as [| | | | |d]; try done. simpl in Hx.
  apply andb_true_iff in Hx as [Hn Hnd]. apply negb_true_iff in Hnd.
  rewrite download_record_nested, Hn. by apply download_from_non_dict.
Qed.

Lemma download_record_unprintable (py_str : Json → string) (env : Env)
    (total : nat) (options : Dict) (i : Z) (x : Json) (failed : list Json)
    (w : World) :
  unprintable env x = true →
  download_record py_str env total options (i, x) failed w
    = (Raise UnicodeEncodeError, w).
Proof.
  intros Hx. destruct x as [| | | | |d]; try done. simpl in Hx.
  rewrite download_record_nested.
  destruct (nested_of d) as [| | | | |nd] eqn:Hn; try done.
  apply andb_true_iff in Hx as [Hx Hp]. apply andb_true_iff in Hx as [Ht Hid].
  apply negb_true_iff in Hp.
  rewrite Ht, download_from_id, Hid. by apply attempt_download_unprintable.
Qed.

Lemma download_record_well_formed (py_str : Json → string) (env : Env)
    (total : nat) (options : Dict) (i : Z) (x : Json) (failed : list Json)
    (w : World) :
  aborts env x = false →
  returns (fst (download_record py_str env total options (i, x) failed w)).
Proof.
  intros Hx. apply orb_false_iff in Hx as [Hx Hp].
  destruct x as [| | | | |d]; try done. simpl in Hx, Hp.
  rewrite download_record_nested.
  destruct (truthy (nested_of d)) eqn:Hn; [| by eexists].
  simpl in Hx. apply negb_false_iff in Hx.
  destruct (nested_of d) as [| | | | |nd]; try done.
  rewrite download_from_id. destruct (truthy (id_of nd)); [| by eexists].
  simpl in Hp. apply negb_false_iff in Hp.
  by apply attempt_download_returns.
Qed.

Lemma aborts_cases (env : Env) (x : Json) :
  aborts env x = true → malformed x = true ∨ unprintable env x = true.
Proof. unfold aborts. by intros ?%orb_true_iff. Qed.

(** The loop returns when no record aborts it. *)
Lemma download_loop_returns (py_str : Json → string) (env : Env) (total : nat)
    (options : Dict) (entries : list (Z * Json)) :
  Forall (λ e, aborts env (snd e) = false) entries →
  ∀ (failed : list Json) (w : World),
    returns (fst (for_each entries (download_record py_str env total options)
                    failed w)).
Proof.
  induction 1 as [|[i x] entries Hx _ IH]; intros failed w; cbn [for_each].
  - by eexists.
  - destruct (download_record_well_formed py_str env total options i x
                failed w Hx) as [failed1 Hret].
    destruct (download_record py_str env total options (i, x) failed w)
      as [o w1] eqn:Hrun. simpl in Hret. subst o.
    rewrite (bind_ret _ _ _ _ _ Hrun). apply IH.
Qed.

(** The first record that aborts the loop decides the exception. *)
Lemma download_loop_first_abort (py_str : Json → string) (env : Env)
    (total : nat) (options : Dict) (entries : list (Z * Json)) :
  ∀ (good : list Json) (x : Json) (rest : list Json) (failed : list Json)
    (w : World),
    map snd entries = good ++ x :: rest →
    Forall (λ y, aborts env y = false) good →
    let run := for_each entries (download_record py_str env total options)
                 failed w in
    (malformed x = true → fst run = Raise AttributeError)
    ∧ (unprintable env x = true → fst run = Raise UnicodeEncodeError).
Proof.
  induction entries as [|[i y] entries IH];
    intros good x rest failed w Hmap Hgood; cbn [for_each].
  - by destruct good.
  - destruct good as [|g good]; cbn [map snd app] in Hmap; simplify_eq.
    + split; intros Hx.
      * by rewrite (bind_raise_eq _ _ _ _ _
                      (download_record_malformed py_str env total options i x
                         failed w Hx)).
      * by rewrite (bind_raise_eq _ _ _ _ _
                      (download_record_unprintable py_str env total options i x
                         failed w Hx)).
    + apply Forall_cons in Hgood as [Hg Hgood].
      destruct (download_record_well_formed py_str env total options i g
                  failed w Hg) as [failed1 Hret].
      destruct (download_record py_str env total options (i, g) failed w)
        as [o w1] eqn:Hrun. simpl in Hret. subst o.
      rewrite (bind_ret _ _ _ _ _ Hrun). by eapply IH.
Qed.

(** An exception of the loop comes from a record that aborts it. *)
Lemma download_loop_raise (py_str : Json → string) (env : Env) (total : nat)
    (options : Dict) (entries : list (Z * Json)) :
  ∀ (failed : list Json) (w w1 : World) (e : PyExn),
    for_each entries (download_record py_str env total options) failed w
      = (Raise e, w1) →
    (e = AttributeError ∧ Exists (λ en, malformed (snd en) = true) entries)
    ∨ (e = UnicodeEncodeError
       ∧ Exists (λ en, unprintable env (snd en) = true) entries).
Proof.
  induction entries as [|[i x] entries IH]; intros failed w w1 e Hrun;
    cbn [for_each] in Hrun; [done |].
  destruct (aborts env x) eqn:Hx.
  - apply aborts_cases in Hx as [Hx | Hx].
    + rewrite (bind_raise_eq _ _ _ _ _
                 (download_record_malformed py_str env total options i x
                    failed w Hx)) in Hrun.
      left. simplify_eq. split; [done | by apply Exists_cons_hd].
    + rewrite (bind_raise_eq _ _ _ _ _
                 (download_record_unprintable py_str env total options i x
                    failed w Hx)) in Hrun.
      right. simplify_eq. split; [done | by apply Exists_cons_hd].
  - destruct (download_record_well_formed py_str env total options i x
                failed w Hx) as [failed1 Hret].
    destruct (download_record py_str env total options (i, x) failed w)
      as [o w2] eqn:Hstep. simpl in Hret. subst o.
    rewrite (bind_ret _ _ _ _ _ Hstep) in Hrun.
    apply IH in Hrun as [[-> Hex] | [-> Hex]]; [left | right];
      (split; [done | by apply Exists_cons_tl]).
Qed.

Lemma download_all_returns (py_str : Json → string) (env : Env)
    (beatmaps : list Json) (options : Dict) (w : World) :
  Forall (λ x, aborts env x = false) beatmaps →
  returns (fst (download_all py_str env beatmaps options w)).
Proof.
  intros Hgood. apply download_loop_returns.
  rewrite <- (map_snd_enumerate beatmaps 1) in Hgood.
  by apply Forall_fmap in Hgood.
Qed.

Lemma download_all_raise (py_str : Json → string) (env : Env)
    (beatmaps : list Json) (options : Dict) (w w1 : World) (e : PyExn) :
  download_all py_str env beatmaps options w = (Raise e, w1) →
  (e = AttributeError ∧ Exists (λ x, malformed x = true) beatmaps)
  ∨ (e = UnicodeEncodeError ∧ Exists (λ x, unprintable env x = true) beatmaps).
Proof.
  intros Hrun. apply download_loop_raise in Hrun.
  rewrite <- (map_snd_enumerate beatmaps 1) at 1 2.
  destruct Hrun as [[-> Hex] | [-> Hex]]; [left | right];
    (split; [done | by apply Exists_fmap]).
Qed.



(** A well-formed record ends the batch too when its title cannot be
    printed: the first record is downloaded, the second is not requested. *)
Example unprintable_record_aborts_the_batch :
  let run :=
    download_beatmaps Samples.str_scalar Samples.ascii_console
      [Samples.record 1 "first";
       JDict [("beatmapset",
               JDict [("id", JInt 3); ("title", Samples.accented_title)])];
       Samples.record 4 "fourth"]
      Samples.default_options Samples.start in
  fst run = Raise UnicodeEncodeError
  ∧ gets (trace (snd run)) =
      [ArchiveUrl (JInt 1) (build_params Samples.default_options)]
  ∧ files (snd run) = {["1 - first.osz" := Binary Samples.abc]}.
Proof. by vm_compute. Qed.

Lemma unidentified_loop (py_str : Json → string) (env : Env) (total : nat)
    (options : Dict) (entries : list (Z * Json)) :
  Forall (λ e, unidentified (snd e) = true) entries →
  ∀ (failed : list Json) (w : World),
    for_each entries (download_record py_str env total options) failed w =
      (Ret (failed ++ replicate (length entries) JNull),
       {| trace := trace w ++
            map (λ e, EvPrint (MsgSkipMissingData (fst e))) entries;
          files := files w;
          requests := requests w |}).
Proof.
  induction 1 as [|[i x] entries Hx _ IH]; intros failed w; cbn [for_each].
  - simpl. rewrite !app_nil_r. by destruct w.
  - destruct x as [| | | | |d]; try done. simpl in Hx.
    apply negb_true_iff in Hx.
    assert (download_record py_str env total options (i, JDict d) failed w =
              (Ret (failed ++ [JNull]),
               logged (EvPrint (MsgSkipMissingData i)) w)) as Hstep
      by (by rewrite download_record_nested, Hx).
    rewrite (bind_ret _ _ _ _ _ Hstep), IH. simpl.
    by rewrite <- !app_assoc.
Qed.

Lemma report_lines_placeholders (py_str : Json → string) (env : Env) (n : nat)
    (written : string) (w : World) :
  for_each (replicate n JNull) (report_line py_str env) written w
    = (Ret written, w).
Proof. induction n as [|n IH]; [done |]. simpl. exact IH. Qed.

(** X11: a batch, not empty, in which no record has a usable nested object
    makes no request and creates no archive; every record is skipped with its
    message, and because the failure list then holds only placeholders the
    report file is opened and left empty, replacing what it held. *)
Theorem unidentified_batch_empties_the_report (py_str : Json → string)
    (env : Env) (beatmaps : list Json) (options : Dict) (w : World) :
  beatmaps ≠ [] →
  Forall (λ x, unidentified x = true) beatmaps →
  open_error env report_name = None →
  download_beatmaps py_str env beatmaps options w =
    (Ret tt,
     {| trace := trace w ++
          map (λ e, EvPrint (MsgSkipMissingData (fst e))) (enumerate 1 beatmaps)
          ++ [EvPrint MsgFailedSaved];
        files := <[report_name := Text EmptyString]> (files w);
        requests := requests w |}).
Proof.
  intros Hne Hall Hopen. unfold download_beatmaps, download_all.
  erewrite bind_ret; last first.
  { apply unidentified_loop.
    rewrite <- (map_snd_enumerate beatmaps 1) in Hall.
    by apply Forall_fmap in Hall. }
  rewrite length_enumerate. destruct beatmaps as [|x beatmaps]; [done |].
  cbn [length replicate app]. unfold write_report, open_for_writing.
  rewrite Hopen. unfold mbind at 1, M_bind at 1, set_file at 1.
  unfold mbind at 1, M_bind at 1.
  rewrite (report_lines_placeholders py_str env (S (length beatmaps))).
  unfold print, emit. simpl. by rewrite <- app_assoc.
Qed.

Lemma unidentified_batch_empties_the_report_witness :
  let run :=
    download_beatmaps Samples.str_scalar Samples.full_pages
      [JDict [("count", JInt 3)]; JDict [("beatmapset", JDict [])]]
      Samples.default_options Samples.start in
  fst run = Ret tt
  ∧ files (snd run) = {[report_name := Text EmptyString]}
  ∧ requests (snd run) = 0%nat.
Proof.
  intros run. subst run.
  rewrite (unidentified_batch_empties_the_report Samples.str_scalar
             Samples.full_pages
             [JDict [("count", JInt 3)]; JDict [("beatmapset", JDict [])]]
             Samples.default_options Samples.start);
    [done | done | | done].
  repeat constructor.
Defined.

(** ** The exceptions that leave a batch *)

Lemma report_lines_raise (py_str : Json → string) (env : Env)
    (failed : list Json) :
  ∀ (written : string) (w w' : World) (e : PyExn),
    for_each failed (report_line py_str env) written w = (Raise e, w') →
    ∃ n, write_error env report_name n = Some e.
Proof.
  induction failed as [|fail failed IH]; intros written w w' e Hrun;
    cbn [for_each] in Hrun; [done |].
  unfold mbind at 1, M_bind at 1 in Hrun.
  destruct (report_line py_str env fail written w) as [[written1|e1] w1] eqn:Hline.
  - by eapply IH.
  - simplify_eq. unfold report_line, write_text in Hline.
    destruct (truthy fail); [| done].
    destruct (write_error env report_name (String.length written)) as [e1|] eqn:Hw.
    + exists (String.length written). by run_out Hline.
    + by run_out Hline.
Qed.

Lemma write_report_raise (py_str : Json → string) (env : Env)
    (failed : list Json) (w w' : World) (e : PyExn) :
  write_report py_str env failed w = (Raise e, w') →
  open_error env report_name = Some e
  ∨ ∃ n, write_error env report_name n = Some e.
Proof.
  unfold write_report, open_for_writing. destruct failed as [|fail failed]; [done |].
  destruct (open_error env report_name) as [e1|] eqn:Hopen.
  - intros Hrun. left. by run_out Hrun.
  - intros Hrun. right. unfold mbind at 1, M_bind at 1, set_file at 1 in Hrun.
    unfold mbind at 1, M_bind at 1 in Hrun.
    destruct (for_each (fail :: failed) _ _ _) as [[written|e1] w1] eqn:Hlines.
    + by run_out Hrun.
    + simplify_eq. by eapply report_lines_raise.
Qed.



(** ** The console *)

Section ConsoleFacts.
Variables (py_strip py_lower : string → string).
Variable py_isdigit : string → bool.
Variable py_int : string → option Z.

Lemma prompt_yes_no_loop_rejects (prompt default : string) (bad : list string) :
  Forall (λ line, is_yes_or_no (choice_of py_strip py_lower default line) = false)
         bad →
  ∀ (lines : list string) (out : list ConsoleOut),
    prompt_yes_no_loop py_strip py_lower prompt default (bad ++ lines) out =
    prompt_yes_no_loop py_strip py_lower prompt default lines
      (out ++ concat (map (λ _, [AskYesNo prompt default; SayPleaseEnter]) bad)).
Proof.
  induction 1 as [|line bad Hline _ IH]; intros lines out.
  - simpl. by rewrite app_nil_r.
  - cbn [app prompt_yes_no_loop]. rewrite Hline, IH.
    cbn [map concat]. by rewrite <- !app_assoc.
Qed.

(** X13: [prompt_yes_no] reads on until an answer stands for [y] or [n]:
    each line that does not costs one prompt and one reminder, the first that
    does is consumed and decides the result, [True] exactly for [y], and the
    lines after it are left unread. *)
Theorem prompt_yes_no_asks_until_valid (prompt default : string)
    (bad : list string) (good : string) (rest : list string)
    (out : list ConsoleOut) :
  Forall (λ line, is_yes_or_no (choice_of py_strip py_lower default line) = false)
         bad →
  is_yes_or_no (choice_of py_strip py_lower default good) = true →
  prompt_yes_no py_strip py_lower prompt default
    {| stdin := bad ++ good :: rest; stdout := out |} =
  (Got (String.eqb (choice_of py_strip py_lower default good) "y"),
   {| stdin := rest;
      stdout := out ++ concat (map (λ _, [AskYesNo prompt default; SayPleaseEnter])
                                   bad)
                    ++ [AskYesNo prompt default] |}).
Proof.
  intros Hbad Hgood. unfold prompt_yes_no. cbn [stdin stdout].
  rewrite (prompt_yes_no_loop_rejects prompt default bad Hbad).
  cbn [prompt_yes_no_loop]. rewrite Hgood.
  by rewrite <- app_assoc.
Qed.

(** X14: when no line left on standard input stands for [y] or [n],
    [prompt_yes_no] reads them all, asks once more, and ends with the
    [EOFError] of [input]; it never returns an answer of its own. *)
Theorem prompt_yes_no_ends_with_eof (prompt default : string)
    (lines : list string) (out : list ConsoleOut) :
  Forall (λ line, is_yes_or_no (choice_of py_strip py_lower default line) = false)
         lines →
  prompt_yes_no py_strip py_lower prompt default
    {| stdin := lines; stdout := out |} =
  (EOFError,
   {| stdin := [];
      stdout := out ++ concat (map (λ _, [AskYesNo prompt default; SayPleaseEnter])
                                   lines)
                    ++ [AskYesNo prompt default] |}).
Proof.
  intros Hbad. unfold prompt_yes_no. cbn [stdin stdout].
  rewrite <- (app_nil_r lines) at 1.
  rewrite (prompt_yes_no_loop_rejects prompt default lines Hbad).
  cbn [prompt_yes_no_loop]. by rewrite <- app_assoc.
Qed.

Lemma user_id_loop_digits (lines : list string) :
  ∀ (user_id result : string) (out : list ConsoleOut) (c : Console),
    user_id_loop py_strip py_isdigit user_id lines out = (Got result, c) →
    py_isdigit result = true
    ∧ (result = user_id ∨ ∃ line, line ∈ lines ∧ result = py_strip line)
    ∧ stdin c `suffix_of` lines.
Proof.
  induction lines as [|line lines IH]; intros user_id result out c Hrun;
    cbn [user_id_loop] in Hrun;
    destruct (py_isdigit user_id) eqn:Hd; simplify_eq/=; auto.
  apply IH in Hrun as (Hr & Hfrom & Hsuf). split_and!; [done | |].
  - right. destruct Hfrom as [-> | (l & Hl & ->)].
    + exists line. split; [apply list_elem_of_here | done].
    + exists l. split; [by apply list_elem_of_further | done].
  - by apply suffix_cons_r.
Qed.

Lemma read_user_id_isdigit (c c' : Console) (user_id : string) :
  read_user_id py_strip py_isdigit c = (Got user_id, c') →
  py_isdigit user_id = true.
Proof.
  unfold read_user_id, mbind, C_bind, input, until_digits.
  destruct (stdin c) as [|first lines]; [done |]. cbn [stdin stdout].
  intros Hrun. by apply user_id_loop_digits in Hrun as (Hd & _).
Qed.

(** X15: the user id [main] goes on with always satisfies [isdigit], and it
    is the stripped text of a line that was read; [read_user_id] does not
    return before such a line comes. *)
Theorem read_user_id_returns_digits (c c' : Console) (user_id : string) :
  read_user_id py_strip py_isdigit c = (Got user_id, c') →
  py_isdigit user_id = true
  ∧ ∃ line, line ∈ stdin c ∧ user_id = py_strip line.
Proof.
  unfold read_user_id, mbind, C_bind, input, until_digits.
  destruct (stdin c) as [|first lines] eqn:Hin; [done |]. cbn [stdin stdout].
  intros Hrun. apply user_id_loop_digits in Hrun as (Hd & Hfrom & _).
  split; [done |]. destruct Hfrom as [-> | (l & Hl & ->)].
  - exists first. split; [apply list_elem_of_here | done].
  - exists l. split; [by apply list_elem_of_further | done].
Qed.

End ConsoleFacts.

Lemma prompt_yes_no_asks_until_valid_witness :
  prompt_yes_no ConsoleSamples.strip Str.lower "noVideo" "y"
    {| stdin := ["maybe"; "N"; "y"]; stdout := [] |} =
  (Got false,
   {| stdin := ["y"];
      stdout := [AskYesNo "noVideo" "y"; SayPleaseEnter;
                 AskYesNo "noVideo" "y"] |}).
Proof.
  apply (prompt_yes_no_asks_until_valid ConsoleSamples.strip Str.lower
           "noVideo" "y" ["maybe"] "N" ["y"] []).
  - by repeat constructor.
  - reflexivity.
Defined.

Lemma prompt_yes_no_ends_with_eof_witness :
  prompt_yes_no ConsoleSamples.strip Str.lower "noBg" "n"
    {| stdin := ["yes"; "no"]; stdout := [] |} =
  (EOFError,
   {| stdin := [];
      stdout := [AskYesNo "noBg" "n"; SayPleaseEnter;
                 AskYesNo "noBg" "n"; SayPleaseEnter; AskYesNo "noBg" "n"] |}).
Proof.
  apply (prompt_yes_no_ends_with_eof ConsoleSamples.strip Str.lower
           "noBg" "n" ["yes"; "no"] []).
  by repeat constructor.
Defined.

Lemma read_user_id_returns_digits_witness :
  ConsoleSamples.isdigit "12345" = true
  ∧ ∃ line, line ∈ ["abc"; "12345"; "7"] ∧ "12345" = ConsoleSamples.strip line.
Proof.
  apply (read_user_id_returns_digits ConsoleSamples.strip ConsoleSamples.isdigit
           {| stdin := ["abc"; "12345"; "7"]; stdout := [] |}
           {| stdin := ["7"]; stdout := [AskUserId; AskUserIdAgain] |}).
  reflexivity.
Defined.

(** ** [main] *)

Lemma build_params_main_options (a b c d : bool) :
  build_params (main_options a b c d) =
  [("nohitsound", flag a); ("nostoryboard", flag b);
   ("nobg", flag c); ("novideo", flag d)].
Proof. by destruct a, b, c, d. Qed.

Section MainFacts.
Variables (py_strip py_lower : string → string).
Variable py_isdigit : string → bool.
Variable py_int : string → option Z.
Variable py_str : Json → string.
Variable env : Env.

Lemma C_bind_inv {A B : Type} (m : C A) (f : A → C B) (c c' : Console) (b : B) :
  (m ≫= f) c = (Got b, c') → ∃ a c0, m c = (Got a, c0) ∧ f a c0 = (Got b, c').
Proof.
  unfold mbind, C_bind. destruct (m c) as [[a|] c0]; [eauto | discriminate].
Qed.

Lemma C_bind_got {A B : Type} (m : C A) (f : A → C B) (c c' : Console) (a : A) :
  m c = (Got a, c') → (m ≫= f) c = f a c'.
Proof. intros H. unfold mbind, C_bind. by rewrite H. Qed.

(** The dialogue of [main], step by step: the options it passes on hold,
    under the four lower-case keys, the answers to the four prompts in the
    order they are asked. *)
Lemma main_inputs_options (c c1 : Console) (user_id : string) (limit offset : Z)
    (options : Dict) :
  main_inputs py_strip py_lower py_isdigit py_int c
    = (Got (user_id, limit, offset, options), c1) →
  py_isdigit user_id = true
  ∧ ∃ (nohitsound nostoryboard nobg novideo : bool) (c2 c3 c4 c5 : Console),
      (say SayBanner;;
       read_user_id py_strip py_isdigit;;
       read_int py_strip py_int AskLimit 10 SayLimitDefaulted;;
       read_int py_strip py_int AskOffset 0 SayOffsetDefaulted;;
       say SaySelectOptions) c = (Got tt, c2)
      ∧ prompt_yes_no py_strip py_lower "NoHitsound" "n" c2 = (Got nohitsound, c3)
      ∧ prompt_yes_no py_strip py_lower "NoStoryboard" "n" c3
          = (Got nostoryboard, c4)
      ∧ prompt_yes_no py_strip py_lower "noBg" "n" c4 = (Got nobg, c5)
      ∧ prompt_yes_no py_strip py_lower "noVideo" "y" c5 = (Got novideo, c1)
      ∧ options = main_options nohitsound nostoryboard nobg novideo.
Proof.
  unfold main_inputs. intros Hrun.
  apply C_bind_inv in Hrun as ([] & ca & Hbanner & Hrun).
  apply C_bind_inv in Hrun as (uid & cb & Huid & Hrun).
  apply read_user_id_isdigit in Huid as Hd.
  apply C_bind_inv in Hrun as (lim & cc & Hlimit & Hrun).
  apply C_bind_inv in Hrun as (off & cd & Hoffset & Hrun).
  apply C_bind_inv in Hrun as ([] & c2 & Hselect & Hrun).
  apply C_bind_inv in Hrun as (a & c3 & Ha & Hrun).
  apply C_bind_inv in Hrun as (b & c4 & Hb & Hrun).
  apply C_bind_inv in Hrun as (c' & c5 & Hc & Hrun).
  apply C_bind_inv in Hrun as (d & c6 & Hd' & Hrun).
  unfold mret, C_ret in Hrun. simplify_eq. split; [done |].
  exists a, b, c', d, c2, c3, c4, c5. split_and!; try done.
  erewrite C_bind_got by exact Hbanner.
  erewrite C_bind_got by exact Huid.
  erewrite C_bind_got by exact Hlimit.
  erewrite C_bind_got by exact Hoffset.
  exact Hselect.
Qed.

(** The requests of [main], for whatever options the dialogue gave. *)
Lemma main_gets (c c1 : Console) (w : World) (user_id : string)
    (limit offset : Z) (options : Dict) :
  main_inputs py_strip py_lower py_isdigit py_int c
    = (Got (user_id, limit, offset, options), c1) →
  ∃ urls,
    gets (trace (snd (main py_strip py_lower py_isdigit py_int py_str env c w))) =
        gets (trace w)
        ++ map (λ k, ListingUrl user_id 10 (nth_offset offset k))
               (seq 0 (iterations limit))
        ++ urls
    ∧ Forall (archive_request (build_params options)) urls.
Proof.
  intros Hin. unfold main. rewrite Hin.
  destruct (retrieve_run env user_id limit offset w) as (w1 & -> & Ht & _).
  destruct (concat _) as [|beatmap beatmaps].
  - exists []. simpl. by rewrite Ht, app_nil_r.
  - destruct (effect_download_beatmaps py_str env (beatmap :: beatmaps)
                options w1) as (evs & Ht2 & _ & _ & Hall & _).
    exists (gets evs).
    destruct (download_beatmaps _ _ _ _ w1) as [[u|e] w2];
      simpl in Ht2 |- *; by rewrite Ht2, gets_app, Ht, <- app_assoc.
Qed.


(** X17: with a limit that is not positive [main] fetches nothing: it says
    that no beatmaps were found and returns, the world as it was. *)
Theorem main_nonpositive_limit (c c1 : Console) (w : World) (user_id : string)
    (limit offset : Z) (options : Dict) :
  main_inputs py_strip py_lower py_isdigit py_int c
    = (Got (user_id, limit, offset, options), c1) →
  limit ≤ 0 →
  main py_strip py_lower py_isdigit py_int py_str env c w =
    (Returned,
     {| stdin := stdin c1; stdout := stdout c1 ++ [SayNoBeatmaps] |}, w).
Proof.
  intros Hin Hlimit. unfold main. rewrite Hin.
  unfold retrieve_most_played_beatmaps.
  by rewrite py_range_offsets, iterations_nonpositive.
Qed.


Lemma read_user_id_first (line : string) (rest : list string)
    (out : list ConsoleOut) :
  py_isdigit (py_strip line) = true →
  read_user_id py_strip py_isdigit {| stdin := line :: rest; stdout := out |} =
    (Got (py_strip line), {| stdin := rest; stdout := out ++ [AskUserId] |}).
Proof.
  intros Hd. unfold read_user_id, mbind, C_bind, input, until_digits.
  cbn [stdin stdout]. destruct rest; cbn [user_id_loop]; by rewrite Hd.
Qed.

Lemma read_int_default (ask warning : ConsoleOut) (default : Z) (line : string)
    (rest : list string) (out : list ConsoleOut) :
  py_int (py_strip line) = None →
  read_int py_strip py_int ask default warning
    {| stdin := line :: rest; stdout := out |} =
    (Got default, {| stdin := rest; stdout := (out ++ [ask]) ++ [warning] |}).
Proof. intros Hn. unfold read_int, input. cbn [stdin stdout]. by rewrite Hn. Qed.

Lemma prompt_yes_no_default (prompt default line : string) (rest : list string)
    (out : list ConsoleOut) :
  py_lower (py_strip line) = EmptyString →
  is_yes_or_no default = true →
  prompt_yes_no py_strip py_lower prompt default
    {| stdin := line :: rest; stdout := out |} =
    (Got (String.eqb default "y"),
     {| stdin := rest; stdout := out ++ [AskYesNo prompt default] |}).
Proof.
  intros Hline Hdefault. unfold prompt_yes_no. cbn [stdin stdout prompt_yes_no_loop].
  unfold choice_of. by rewrite Hline, Hdefault.
Qed.

(** X19: the run in which every answer falls back on its default: a user id of
    digits, a count and an offset that [int] rejects, four empty answers.  The
    one listing request is for ten items at offset 0, and every archive
    request asks for the video to be left out and for nothing else. *)
Theorem main_with_defaults (user_id count start a1 a2 a3 a4 : string) (w : World) :
  py_isdigit (py_strip user_id) = true →
  py_int (py_strip count) = None →
  py_int (py_strip start) = None →
  Forall (λ answer, py_lower (py_strip answer) = EmptyString) [a1; a2; a3; a4] →
  let c := {| stdin := [user_id; count; start; a1; a2; a3; a4]; stdout := [] |} in
  let w' := snd (main py_strip py_lower py_isdigit py_int py_str env c w) in
  ∃ urls,
    gets (trace w') =
      gets (trace w) ++ ListingUrl (py_strip user_id) 10 0 :: urls
    ∧ Forall (archive_request
                [("nohitsound", "false"); ("nostoryboard", "false");
                 ("nobg", "false"); ("novideo", "true")]) urls.
Proof.
  intros Hid Hcount Hstart Hanswers c w'.
  apply Forall_cons in Hanswers as [H1 Hanswers].
  apply Forall_cons in Hanswers as [H2 Hanswers].
  apply Forall_cons in Hanswers as [H3 Hanswers].
  apply Forall_cons in Hanswers as [H4 _].
  assert (main_inputs py_strip py_lower py_isdigit py_int c =
            (Got (py_strip user_id, 10, 0, main_options false false false true),
             {| stdin := [];
                stdout := [SayBanner; AskUserId; AskLimit; SayLimitDefaulted;
                           AskOffset; SayOffsetDefaulted; SaySelectOptions;
                           AskYesNo "NoHitsound" "n"; AskYesNo "NoStoryboard" "n";
                           AskYesNo "noBg" "n"; AskYesNo "noVideo" "y"] |}))
    as Hin.
  { subst c. unfold main_inputs.
    erewrite C_bind_got by reflexivity.
    erewrite C_bind_got by (by apply read_user_id_first).
    erewrite C_bind_got by (by apply read_int_default).
    erewrite C_bind_got by (by apply read_int_default).
    erewrite C_bind_got by reflexivity.
    erewrite C_bind_got by (by apply prompt_yes_no_default).
    erewrite C_bind_got by (by apply prompt_yes_no_default).
    erewrite C_bind_got by (by apply prompt_yes_no_default).
    erewrite C_bind_got by (by apply prompt_yes_no_default).
    reflexivity. }
  destruct (main_gets c _ w _ _ _ _ Hin) as (urls & Hg & Hall).
  exists urls. subst w'. rewrite Hg.
  rewrite (build_params_main_options false false false true) in Hall.
  split; [reflexivity | exact Hall].
Qed.

End MainFacts.



Lemma main_nonpositive_limit_witness :
  ConsoleSamples.run_main ["12345"; "0"; "40"; "y"; "y"; "y"; "y"]
    Samples.full_pages =
  (Returned,
   {| stdin := [];
      stdout := [SayBanner; AskUserId; AskLimit; AskOffset; SaySelectOptions;
                 AskYesNo "NoHitsound" "n"; AskYesNo "NoStoryboard" "n";
                 AskYesNo "noBg" "n"; AskYesNo "noVideo" "y"; SayNoBeatmaps] |},
   Samples.start).
Proof.
  unfold ConsoleSamples.run_main.
  rewrite (main_nonpositive_limit ConsoleSamples.strip Str.lower
             ConsoleSamples.isdigit ConsoleSamples.to_int Samples.str_scalar
             Samples.full_pages
             {| stdin := ["12345"; "0"; "40"; "y"; "y"; "y"; "y"]; stdout := [] |}
             (snd (main_inputs ConsoleSamples.strip Str.lower
                     ConsoleSamples.isdigit ConsoleSamples.to_int
                     {| stdin := ["12345"; "0"; "40"; "y"; "y"; "y"; "y"];
                        stdout := [] |}))
             Samples.start "12345" 0 40 (main_options true true true true));
    [reflexivity | by vm_compute | lia].
Defined.


Lemma main_with_defaults_witness :
  let c := {| stdin := ["12345"; "ten"; "-"; EmptyString; EmptyString;
                        EmptyString; EmptyString];
              stdout := [] |} in
  let w' := snd (main ConsoleSamples.strip Str.lower ConsoleSamples.isdigit
                   ConsoleSamples.to_int Samples.str_scalar Samples.full_pages
                   c Samples.start) in
  ∃ urls, gets (trace w') = ListingUrl "12345" 10 0 :: urls.
Proof.
  intros c w'.
  pose proof (main_with_defaults ConsoleSamples.strip Str.lower
                ConsoleSamples.isdigit ConsoleSamples.to_int Samples.str_scalar
                Samples.full_pages "12345" "ten" "-" EmptyString EmptyString
                EmptyString EmptyString Samples.start
                eq_refl eq_refl eq_refl) as H.
  cbv zeta in H. destruct H as (urls & Hg & _); [by repeat constructor |].
  exists urls. subst w' c. rewrite Hg. reflexivity.
Defined.

(** ** More on the sanitizer *)

Lemma chars_app (s t : string) :
  Str.chars (s +:+ t) = Str.chars s ++ Str.chars t.
Proof.
  induction s as [|c s IH]; [done |]. rewrite append_cons. simpl. by rewrite IH.
Qed.

(** X20: the sanitizer works character by character: sanitizing a
    concatenation gives the concatenation of the sanitized parts. *)
Theorem sanitize_filename_app (s t : string) :
  sanitize_filename (s +:+ t) = sanitize_filename s +:+ sanitize_filename t.
Proof.
  apply chars_inj.
  by rewrite chars_app, !sanitize_filename_chars, chars_app, filter_app.
Qed.

Lemma filter_fixed {A : Type} (P : A → Prop) `{!∀ x, Decision (P x)}
    (l : list A) :
  filter P l = l ↔ Forall P l.
Proof.
  split.
  - intros Heq. apply Forall_forall. intros x Hx. rewrite <- Heq in Hx.
    by apply list_elem_of_filter in Hx as [? _].
  - induction 1 as [|x l Hx _ IH]; [done |].
    rewrite filter_cons_True by done. by f_equal.
Qed.

(** X21: the names the sanitizer leaves unchanged are exactly those without
    a reserved character; on every other name the result is strictly
    shorter. *)
Theorem sanitize_filename_fixed_points (name : string) :
  (sanitize_filename name = name ↔
     ∀ c, c ∈ reserved_chars → c ∉ Str.chars name)
  ∧ (sanitize_filename name ≠ name →
     (length (Str.chars (sanitize_filename name)) < length (Str.chars name))%nat).
Proof.
  assert (sanitize_filename name = name ↔
            Forall (λ c, c ∉ reserved_chars) (Str.chars name)) as Hfix.
  { rewrite <- filter_fixed, <- sanitize_filename_chars. split.
    - by intros ->.
    - apply chars_inj. }
  split.
  - rewrite Hfix, Forall_forall. split.
    + intros H c Hc Hin. by apply (H c).
    + intros H c Hin Hc. by apply (H c).
  - intros Hne. rewrite sanitize_filename_chars.
    assert (¬ Forall (λ c, c ∉ reserved_chars) (Str.chars name)) as Hnot
      by (by rewrite <- Hfix).
    apply not_Forall_Exists in Hnot; [| apply _].
    apply Exists_exists in Hnot as (c & Hin & Hc).
    by eapply length_filter_lt.
Qed.

Lemma sanitize_filename_fixed_points_witness :
  (length (Str.chars (sanitize_filename "a:b")) < length (Str.chars "a:b"))%nat.
Proof.
  apply (proj2 (sanitize_filename_fixed_points "a:b")). discriminate.
Defined.
